(** * geopotent: the analysis pipeline of [potential_app/views.py]

    A shallow embedding of [ProcessAnalysisView.get] and of the data it
    handles, together with the properties of the land-potential
    specification that concern it.

    Conventions of the embedding.
    - Python values are the inductive type [pyval]; a [dict] with string
      keys is a [gmap string pyval], so that two dicts with the same
      entries are equal, as with Python's [==].
    - Python numbers ([int] and [float]) are exact rationals [Q] in the
      values and in what is handed to the stages, where rounding decides
      nothing.  Numeric comparison with zero (truthiness) is on the value,
      not on the representation.  The two assignments of the parcel area
      are given over any arithmetic as well, with exact rationals and
      binary64 floats as instances, since there rounding decides what
      holds.
    - A Python expression that may raise is an [option]: [None] is a
      raised exception, [Some v] a returned value.  [try_except] is the
      [try: ... except Exception: ...] block with a default.
    - The functions imported from [utils.soil_analysis] and
      [utils.energy_estimation] are external stages; the pipeline is
      parametrised by them, each may return any value or raise, and none
      modifies its arguments. *)

From Stdlib Require Import QArith Qabs.
From Stdlib Require Import Floats.SpecFloat.
From stdpp Require Import gmap strings list fin_maps pretty.

Local Open Scope string_scope.

(** ** Python values *)

#[warnings="-register-all"]
Inductive pyval : Type :=
  | VNone
  | VBool (b : bool)
  | VNum (q : Q)
  | VStr (s : string)
  | VList (l : list pyval)
  | VDict (d : gmap string pyval).

(** Python's [bool(v)]: [None], [False], zero, and the empty string, list
    and dict are falsy; everything else is truthy. *)
Definition num_truthy (q : Q) : bool := negb (Qeq_bool q 0).

Definition truthy (v : pyval) : bool :=
  match v with
  | VNone => false
  | VBool b => b
  | VNum q => num_truthy q
  | VStr s => negb (String.eqb s "")
  | VList l => match l with [] => false | _ => true end
  | VDict d => negb (bool_decide (d = ∅))
  end.

(** [a or b] *)
Definition py_or (a b : pyval) : pyval := if truthy a then a else b.

(** [isinstance(v, dict)] *)
Definition is_dict (v : pyval) : bool :=
  match v with VDict _ => true | _ => false end.

(** The number a value stands for under [+]: [bool] is a subtype of
    [int] in Python. *)
Definition as_number (v : pyval) : option Q :=
  match v with
  | VNum q => Some q
  | VBool b => Some (if b then 1 else 0)%Q
  | _ => None
  end.

Definition is_number (v : pyval) : bool :=
  match as_number v with Some _ => true | None => false end.

(** [a + b]: numeric addition, string and list concatenation; any other
    pair of operands raises [TypeError]. *)
Definition py_add (a b : pyval) : option pyval :=
  match a, b with
  | VStr s, VStr t => Some (VStr (s ++ t))
  | VList l, VList k => Some (VList (l ++ k))
  | _, _ =>
      match as_number a, as_number b with
      | Some x, Some y => Some (VNum (x + y))
      | _, _ => None
      end
  end.

(** [d.get(k, default)] and [d.setdefault(k, default)] *)
Definition dict_get (d : gmap string pyval) (k : string) (dflt : pyval) : pyval :=
  match d !! k with Some v => v | None => dflt end.

Definition setdefault (k : string) (dflt : pyval) (d : gmap string pyval)
  : gmap string pyval :=
  match d !! k with Some _ => d | None => <[k := dflt]> d end.

(** [for item in v]: the items a [for] loop visits, or a [TypeError] when
    [v] is not iterable.  A string yields its characters and a dict its
    keys. *)
Fixpoint chars (s : string) : list pyval :=
  match s with
  | EmptyString => []
  | String c s' => VStr (String c EmptyString) :: chars s'
  end.

Definition py_iter (v : pyval) : option (list pyval) :=
  match v with
  | VList l => Some l
  | VStr s => Some (chars s)
  | VDict d => Some (VStr <$> (map_to_list d).*1)
  | _ => None
  end.

(** [try: v = e  except Exception: v = dflt] *)
Definition try_except {A} (e : option A) (dflt : A) : A :=
  match e with Some v => v | None => dflt end.

(** A stage call that raised, or returned a falsy value. *)
Definition no_data (outcome : option pyval) : bool :=
  match outcome with
  | None => true
  | Some v => negb (truthy v)
  end.

(** ** Normalisation of the monthly breakdown *)

(** The dict literal appended for each bucket. *)
Definition month_record (month energy revenue pv wind : pyval) : gmap string pyval :=
  <["month" := month]> (
  <["energy" := energy]> (
  <["revenue" := revenue]> (
  <["pv_energy_kwh" := pv]> (
  <["wind_energy_kwh" := wind]> ∅)))).

(** The body of the loop of [ProcessAnalysisView.get] over
    [energy_results.get("monthly_breakdown", [])].  [item.get] raises
    [AttributeError] on anything but a dict.  Python evaluates the default
    argument of [item.get("energy", ...)] before the call, so the sum of
    the two energies is computed, and may raise, whether or not the key
    ["energy"] is present. *)
Definition normalize_month (item : pyval) : option pyval :=
  match item with
  | VDict d =>
      total ← py_add (dict_get d "pv_energy_kwh" (VNum 0))
                     (dict_get d "wind_energy_kwh" (VNum 0));
      Some (VDict (month_record
        (dict_get d "month" (VStr ""))
        (dict_get d "energy" total)
        (dict_get d "revenue" (dict_get d "revenue_inr" (VNum 0)))
        (dict_get d "pv_energy_kwh" (VNum 0))
        (dict_get d "wind_energy_kwh" (VNum 0))))
  | _ => None
  end.

Definition normalize_months (items : list pyval) : option (list pyval) :=
  mapM normalize_month items.

(** The five keys of a normalised month. *)
Definition month_keys : gset string :=
  {[ "month"; "energy"; "revenue"; "pv_energy_kwh"; "wind_energy_kwh" ]}.

(** A bucket as the energy estimator documents it: a dict whose two
    energies, where present, are numbers. *)
Definition energy_bucket (item : pyval) : bool :=
  match item with
  | VDict d => is_number (dict_get d "pv_energy_kwh" (VNum 0))
               && is_number (dict_get d "wind_energy_kwh" (VNum 0))
  | _ => false
  end.

(** ** Soil data: one value per depth layer *)

(** The loop over [raw_soil.items()]: a dict value is kept, any other
    value is stored under each of the three layers. *)
Definition soil_layers (value : pyval) : pyval :=
  if is_dict value then value
  else VDict (<["0-5cm" := value]> (<["5-15cm" := value]> (<["15-30cm" := value]> ∅))).

Definition build_soil_data (raw_soil : gmap string pyval) : gmap string pyval :=
  map_fold (λ prop value soil_data, <[prop := soil_layers value]> soil_data) ∅ raw_soil.

(** ** Parcel area *)

(** [area_m2 = analysis.area_m2 or (analysis.area_ha * 10000 if analysis.area_ha else 0)]
    and [area_ha = area_m2 / 10000 if area_m2 else 0].  A stored field may
    be [None]. *)
Definition area_from_ha (stored_ha : option Q) : Q :=
  match stored_ha with
  | Some h => if num_truthy h then h * 10000 else 0
  | None => 0
  end%Q.

Definition pipeline_area_m2 (stored_m2 stored_ha : option Q) : Q :=
  match stored_m2 with
  | Some m => if num_truthy m then m else area_from_ha stored_ha
  | None => area_from_ha stored_ha
  end.

Definition pipeline_area_ha (area_m2 : Q) : Q :=
  (if num_truthy area_m2 then area_m2 / 10000 else 0)%Q.

(** The numbers of the two assignments: the literals [0] and [10000],
    [*], [/] and the truth value of a number, which is false on zero
    only. *)
Class Arithmetic (num : Type) := {
  zero : num;
  ten_thousand : num;
  times : num → num → num;
  divided_by : num → num → num;
  nonzero : num → bool;
  zero_is_falsy : nonzero zero = false
}.

(** Exact rationals, the numbers of [pipeline_area_m2] and
    [pipeline_area_ha]. *)
Definition rational_arithmetic : Arithmetic Q :=
  {| zero := 0%Q;
     ten_thousand := 10000%Q;
     times := Qmult;
     divided_by := Qdiv;
     nonzero := num_truthy;
     zero_is_falsy := eq_refl |}.

(** Python's [float]: binary64, with 53 bits of precision, exponents
    below 1024 and the rounding of IEEE 754.  [binary64_of_Z] is the float
    of an integer literal; [==] is [SFeqb]; [-0.0] is falsy and a NaN
    truthy, as [bool] has them. *)
Definition binary64_mul : spec_float → spec_float → spec_float :=
  SFmul 53 1024.

Definition binary64_div : spec_float → spec_float → spec_float :=
  SFdiv 53 1024.

Definition binary64_of_Z (z : Z) : spec_float :=
  match z with
  | Z0 => S754_zero false
  | Zpos _ => binary_normalize 53 1024 z 0 false
  | Zneg _ => binary_normalize 53 1024 z 0 true
  end.

Definition float_arithmetic : Arithmetic spec_float :=
  {| zero := binary64_of_Z 0;
     ten_thousand := binary64_of_Z 10000;
     times := binary64_mul;
     divided_by := binary64_div;
     nonzero := λ x, negb (SFeqb x (binary64_of_Z 0));
     zero_is_falsy := eq_refl |}.

Section Areas.
Context {num : Type} {arith : Arithmetic num}.

(** [analysis.area_ha * 10000 if analysis.area_ha else 0] *)
Definition passed_from_ha (stored_ha : option num) : num :=
  match stored_ha with
  | Some h => if nonzero h then times h ten_thousand else zero
  | None => zero
  end.

(** [area_m2 = analysis.area_m2 or (...)], the area handed to the energy
    estimation. *)
Definition passed_area_m2 (stored_m2 stored_ha : option num) : num :=
  match stored_m2 with
  | Some m => if nonzero m then m else passed_from_ha stored_ha
  | None => passed_from_ha stored_ha
  end.

(** [area_ha = area_m2 / 10000 if area_m2 else 0], the area handed to the
    agri revenue and to the mixed analysis. *)
Definition passed_area_ha (area_m2 : num) : num :=
  if nonzero area_m2 then divided_by area_m2 ten_thousand else zero.

(** A stored area field that is absent or zero. *)
Definition stored_unset (field : option num) : bool :=
  match field with
  | Some x => negb (nonzero x)
  | None => true
  end.

End Areas.

(** A stored float field that is not positive: absent, zero or negative. *)
Definition float_not_positive (field : option spec_float) : bool :=
  match field with
  | Some x => SFleb x (binary64_of_Z 0)
  | None => true
  end.

(** ** The stored analysis and the view *)

(** The fields of the [LandAnalysis] model that the view reads and
    writes.  Dates are kept as their ["%Y-%m-%d"] rendering. *)
Record LandAnalysis := mkLandAnalysis {
  latitude : Q;
  longitude : Q;
  start_date : string;
  end_date : string;
  area_m2 : option Q;
  area_ha : option Q;
  pv_efficiency : pyval;
  pv_performance_ratio : pyval;
  pv_land_coverage : pyval;
  pv_system_efficiency : pyval;
  wind_rated_power_kw : pyval;
  wind_rotor_diameter_m : pyval;
  wind_hub_height_m : pyval;
  wind_cut_in_ms : pyval;
  wind_rated_ws_ms : pyval;
  wind_cut_out_ms : pyval;
  wind_alpha : pyval;
  wind_system_efficiency : pyval;
  dc_voltage : pyval;
  soil_data : pyval;
  crop_recommendations : pyval;
  energy_results : pyval
}.

(** The three assignments [analysis.soil_data = ...],
    [analysis.crop_recommendations = ...] and
    [analysis.energy_results = ...]. *)
Definition set_results (a : LandAnalysis) (soil crops energy : pyval) : LandAnalysis :=
  mkLandAnalysis (latitude a) (longitude a) (start_date a) (end_date a)
    (area_m2 a) (area_ha a)
    (pv_efficiency a) (pv_performance_ratio a) (pv_land_coverage a)
    (pv_system_efficiency a)
    (wind_rated_power_kw a) (wind_rotor_diameter_m a) (wind_hub_height_m a)
    (wind_cut_in_ms a) (wind_rated_ws_ms a) (wind_cut_out_ms a) (wind_alpha a)
    (wind_system_efficiency a) (dc_voltage a)
    soil crops energy.

Definition pv_config (a : LandAnalysis) : gmap string pyval :=
  <["efficiency" := pv_efficiency a]> (
  <["performance_ratio" := pv_performance_ratio a]> (
  <["land_coverage" := pv_land_coverage a]> (
  <["system_efficiency" := pv_system_efficiency a]> ∅))).

Definition wind_config (a : LandAnalysis) : gmap string pyval :=
  <["rated_power_kw" := wind_rated_power_kw a]> (
  <["rotor_diameter_m" := wind_rotor_diameter_m a]> (
  <["hub_height_m" := wind_hub_height_m a]> (
  <["cut_in_ms" := wind_cut_in_ms a]> (
  <["rated_ws_ms" := wind_rated_ws_ms a]> (
  <["cut_out_ms" := wind_cut_out_ms a]> (
  <["alpha" := wind_alpha a]> (
  <["system_efficiency" := wind_system_efficiency a]> ∅))))))).

(** The seven [setdefault] calls on [energy_results]. *)
Definition energy_defaults (d : gmap string pyval) : gmap string pyval :=
  setdefault "daily_plot" (VStr "") (
  setdefault "hourly_plot" (VStr "") (
  setdefault "monthly_breakdown" (VList []) (
  setdefault "total_revenue" (VNum 0) (
  setdefault "wind_energy_kwh" (VNum 0) (
  setdefault "pv_energy_kwh" (VNum 0) (
  setdefault "total_energy_kwh" (VNum 0) d)))))).

Definition default_agri_revenue : pyval := VDict (<["details" := VList []]> ∅).

Definition default_mixed_analysis : pyval :=
  VDict (<["scenarios" := VList []]> (<["best_scenario" := VDict ∅]> ∅)).

(** The defaults and the normalised monthly breakdown; outside any local
    [try].  [setdefault] needs a dict, the loop an iterable of dicts. *)
Definition normalize_energy (energy : pyval) : option (gmap string pyval) :=
  match energy with
  | VDict d =>
      let d := energy_defaults d in
      items ← py_iter (dict_get d "monthly_breakdown" (VList []));
      normalized_months ← normalize_months items;
      Some (<["monthly_breakdown" := VList normalized_months]> d)
  | _ => None
  end.

(** The document of an energy stage without data: [{}] after the seven
    [setdefault] calls and the normalisation of its empty breakdown. *)
Definition zero_energy_document : gmap string pyval :=
  <["monthly_breakdown" := VList []]> (energy_defaults ∅).

(** What the view answers. *)
Inductive response :=
  | RedirectResults (analysis_id : Z)
  | RedirectIndex.

(** The external stages, imported by the view from [utils.soil_analysis]
    and [utils.energy_estimation].  [None] is a raised exception. *)
Class Stages := {
  get_soil_data : Q → Q → option pyval;
  recommend_crops : pyval → option pyval;
  estimate_energy_potential :
    Q → Q → string → string → Q → gmap string pyval → gmap string pyval → pyval →
    option pyval;
  estimate_agri_revenue : pyval → Q → option pyval;
  calculate_mixed_potential : pyval → pyval → Q → option pyval
}.

Section Pipeline.
Context {stages : Stages}.

(** [get_soil_data(...) or {}], then the loop over [raw_soil.items()];
    neither is inside a local [try]. *)
Definition soil_stage (a : LandAnalysis) : option (gmap string pyval) :=
  fetched ← get_soil_data (latitude a) (longitude a);
  match py_or fetched (VDict ∅) with
  | VDict raw_soil => Some (build_soil_data raw_soil)
  | _ => None
  end.

(** [try: crop_recommendations = recommend_crops(soil_data) or []
     except Exception: crop_recommendations = []] *)
Definition crop_stage (soil : gmap string pyval) : pyval :=
  try_except
    (found ← recommend_crops (VDict soil); Some (py_or found (VList [])))
    (VList []).

(** The call of [estimate_energy_potential] with its keyword arguments. *)
Definition energy_call (a : LandAnalysis) : option pyval :=
  estimate_energy_potential
    (latitude a) (longitude a) (start_date a) (end_date a)
    (pipeline_area_m2 (area_m2 a) (area_ha a))
    (pv_config a) (wind_config a) (dc_voltage a).

(** The [try] around the area computation and
    [estimate_energy_potential(...) or {}]. *)
Definition energy_stage (a : LandAnalysis) : pyval :=
  try_except
    (estimated ← energy_call a; Some (py_or estimated (VDict ∅)))
    (VDict ∅).

(** [try: agri_revenue = estimate_agri_revenue(...) or {"details": []}
     except Exception: agri_revenue = {"details": []}] *)
Definition agri_stage (crops : pyval) (ha : Q) : pyval :=
  try_except
    (estimated ← estimate_agri_revenue crops ha;
     Some (py_or estimated default_agri_revenue))
    default_agri_revenue.

Definition mixed_stage (energy agri : pyval) (ha : Q) : pyval :=
  try_except
    (mixed ← calculate_mixed_potential energy agri ha;
     Some (py_or mixed default_mixed_analysis))
    default_mixed_analysis.

(** From the energy stage to the record that is saved, given the soil
    data and the crop recommendations. *)
Definition after_crops (a : LandAnalysis) (soil : gmap string pyval)
    (crops : pyval) : option LandAnalysis :=
  let ha := pipeline_area_ha (pipeline_area_m2 (area_m2 a) (area_ha a)) in
  energy ← normalize_energy (energy_stage a);
  let agri := agri_stage crops ha in
  let mixed := mixed_stage (VDict energy) agri ha in
  let energy := <["mixed_analysis" := mixed]> (<["agri_revenue" := agri]> energy) in
  Some (set_results a (VDict soil) crops (VDict energy)).

(** The body of the outer [try], from the loaded analysis to the one
    that is saved. *)
Definition run_pipeline (a : LandAnalysis) : option LandAnalysis :=
  soil ← soil_stage a;
  after_crops a soil (crop_stage soil).

(** [ProcessAnalysisView.get]: the stored analyses are a map from id to
    record; [objects.get] raises [DoesNotExist] on a missing id, and both
    [except] clauses redirect to the index without saving. *)
Definition process_analysis (db : gmap Z LandAnalysis) (analysis_id : Z)
  : response * gmap Z LandAnalysis :=
  match db !! analysis_id with
  | None => (RedirectIndex, db)
  | Some a =>
      match run_pipeline a with
      | Some a' => (RedirectResults analysis_id, <[analysis_id := a']> db)
      | None => (RedirectIndex, db)
      end
  end.

End Pipeline.

(** ** The scenario optimiser *)

Module ScenarioOptimizer.

Local Open Scope Q_scope.

(** Modelled from the spec: [calculate_mixed_potential] of
    [utils.energy_estimation], the scenario optimiser that the view
    calls, is not among the sources.  These records are the fields that
    section 3 of the specification gives to EnergyResult,
    AgriRevenueResult, Scenario and MixedAnalysisResult and that the
    optimiser reads or writes. *)
Record EnergyResult := { total_revenue : Q }.

Record AgriRevenueResult := { aggregate_revenue : Q }.

Record Scenario := {
  energy_fraction : Q;
  agri_fraction : Q;
  revenue : Q
}.

Record MixedAnalysisResult := {
  scenarios : list Scenario;
  best_scenario : Scenario
}.

(** Modelled from the spec: the grid of allocation fractions of section
    4.4, the fraction of the parcel devoted to energy generation. *)
Definition allocation_fractions : list Q := [0; 1 # 4; 1 # 2; 3 # 4; 1].

(** Modelled from the spec: [revenue(f) = f × energy_result.total_revenue
    + (1 − f) × agri_revenue_result.aggregate_revenue], with the remainder
    [1 − f] of the parcel going to agriculture. *)
Definition scenario_for (e : EnergyResult) (a : AgriRevenueResult) (f : Q)
  : Scenario :=
  {| energy_fraction := f;
     agri_fraction := 1 - f;
     revenue := f * total_revenue e + (1 - f) * aggregate_revenue a |}.

Definition distance_from_half (s : Scenario) : Q :=
  Qabs (energy_fraction s - (1 # 2)).

Definition Qlt_bool (x y : Q) : bool := negb (Qle_bool y x).

(** Modelled from the spec: the tie-break of section 4.4.  [s] replaces
    the best scenario so far when its revenue is greater, or equal with
    [s] closer to one half. *)
Definition preferred (s best : Scenario) : bool :=
  Qlt_bool (revenue best) (revenue s)
  || (Qeq_bool (revenue s) (revenue best)
      && Qlt_bool (distance_from_half s) (distance_from_half best)).

Fixpoint best_of (candidates : list Scenario) (best : Scenario) : Scenario :=
  match candidates with
  | [] => best
  | s :: rest => best_of rest (if preferred s best then s else best)
  end.

(** Modelled from the spec: [optimize(energy_result, agri_revenue_result,
    area_ha)], the contract of section 4.4 for the missing
    [calculate_mixed_potential]: one scenario per fraction of the grid,
    and the best of them by revenue. *)
Definition optimize (e : EnergyResult) (a : AgriRevenueResult) (area_ha : Q)
  : MixedAnalysisResult :=
  let all := map (scenario_for e a) allocation_fractions in
  {| scenarios := all;
     best_scenario := best_of all (scenario_for e a 0) |}.

End ScenarioOptimizer.

(** ** Sample runs *)

(** A two-hectare parcel with no stored area in m². *)
Definition sample_analysis : LandAnalysis :=
  mkLandAnalysis (1297 # 100) (7759 # 100) "2024-01-01" "2024-03-31"
    None (Some 2%Q)
    (VNum (18 # 100)) (VNum (8 # 10)) (VNum (6 # 10)) (VNum (9 # 10))
    (VNum 2000) (VNum 90) (VNum 80) (VNum 3) (VNum 12) (VNum 25)
    (VNum (14 # 100)) (VNum (85 # 100)) (VNum 48)
    VNone VNone VNone.

Definition sample_db : gmap Z LandAnalysis := {[ 1%Z := sample_analysis ]}.

(** One property as a scalar, one per layer. *)
Definition sample_raw_soil : gmap string pyval :=
  <["phh2o" := VNum (65 # 10)]> (
  <["clay" := VDict (<["0-5cm" := VNum 20]> (
                     <["5-15cm" := VNum 22]> (
                     <["15-30cm" := VNum 25]> ∅)))]> ∅).

(** A bucket with an alternate revenue name and no month or energy, and
    a complete one. *)
Definition sample_months : list pyval :=
  [ VDict (<["pv_energy_kwh" := VNum 300]> (
           <["wind_energy_kwh" := VNum 40]> (
           <["revenue_inr" := VNum 1700]> ∅)));
    VDict (<["month" := VStr "2024-02"]> (
           <["energy" := VNum 350]> (
           <["revenue" := VNum 1750]> (
           <["pv_energy_kwh" := VNum 320]> (
           <["wind_energy_kwh" := VNum 30]> ∅))))) ].

(** Every stage raises. *)
Definition stages_offline : Stages :=
  {| get_soil_data := λ _ _, None;
     recommend_crops := λ _, None;
     estimate_energy_potential := λ _ _ _ _ _ _ _ _, None;
     estimate_agri_revenue := λ _ _, None;
     calculate_mixed_potential := λ _ _ _, None |}.

(** The soil fetch answers; every other stage raises. *)
Definition stages_soil_only : Stages :=
  {| get_soil_data := λ _ _, Some (VDict sample_raw_soil);
     recommend_crops := λ _, None;
     estimate_energy_potential := λ _ _ _ _ _ _ _ _, None;
     estimate_agri_revenue := λ _ _, None;
     calculate_mixed_potential := λ _ _ _, None |}.

(** Every stage answers. *)
Definition stages_online : Stages :=
  {| get_soil_data := λ _ _, Some (VDict sample_raw_soil);
     recommend_crops := λ _,
       Some (VList [VDict (<["crop" := VStr "rice"]> (<["score" := VNum (8 # 10)]> ∅))]);
     estimate_energy_potential := λ _ _ _ _ _ _ _ _,
       Some (VDict (<["total_energy_kwh" := VNum 690]> (
                    <["total_revenue" := VNum 3450]> (
                    <["monthly_breakdown" := VList sample_months]> ∅))));
     estimate_agri_revenue := λ _ _,
       Some (VDict (<["details" := VList []]> (<["total_revenue" := VNum 600]> ∅)));
     calculate_mixed_potential := λ _ _ _,
       Some (VDict (<["scenarios" := VList []]> (<["best_scenario" := VDict ∅]> ∅))) |}.

(** ** The result pages *)

(** The template context of [ResultsView], [ReportView] and
    [ReportDownloadView]; only the last has [detailed_plots]. *)
Record context := mkContext {
  ctx_analysis : LandAnalysis;
  ctx_soil_data : pyval;
  ctx_crop_recommendations : pyval;
  ctx_energy_results : pyval;
  ctx_detailed_plots : option string
}.

Inductive page :=
  | Render (template : string) (ctx : context)
  | ToIndex.

(** [energy_results = analysis.energy_results or {}] and the three
    [setdefault] calls of [ResultsView.get]; [setdefault] raises
    [AttributeError] on anything but a dict. *)
Definition results_defaults (stored : pyval) : option (gmap string pyval) :=
  match py_or stored (VDict ∅) with
  | VDict d =>
      Some (setdefault "monthly_breakdown" (VList []) (
            setdefault "mixed_analysis" (VDict ∅) (
            setdefault "agri_revenue" default_agri_revenue d)))
  | _ => None
  end.

(** [ResultsView.get].  Only [DoesNotExist] is caught, so that [None] is
    an exception that leaves the view.  A truthy stored document is the
    very dict that [setdefault] fills, and the analysis handed to the
    template holds it; a falsy one is replaced by a new dict and the
    analysis keeps what it had. *)
Definition results_view (db : gmap Z LandAnalysis) (analysis_id : Z)
  : option page :=
  match db !! analysis_id with
  | None => Some ToIndex
  | Some a =>
      energy ← results_defaults (energy_results a);
      let shown :=
        if truthy (energy_results a)
        then set_results a (soil_data a) (crop_recommendations a) (VDict energy)
        else a in
      Some (Render "potential_app/results.html"
              (mkContext shown
                 (py_or (soil_data a) (VDict ∅))
                 (py_or (crop_recommendations a) (VList []))
                 (VDict energy)
                 None))
  end.

(** [ReportView.get] *)
Definition report_view (db : gmap Z LandAnalysis) (analysis_id : Z) : page :=
  match db !! analysis_id with
  | None => ToIndex
  | Some a =>
      Render "potential_app/report_template.html"
        (mkContext a
           (py_or (soil_data a) (VDict ∅))
           (py_or (crop_recommendations a) (VList []))
           (py_or (energy_results a) (VDict ∅))
           None)
  end.

(** [m[k]] with a string key: [KeyError] on a dict without the key,
    [TypeError] on any other value. *)
Definition py_getitem (k : string) (m : pyval) : option pyval :=
  match m with
  | VDict d => d !! k
  | _ => None
  end.

(** [[m[k] for m in energy_results.get("monthly_breakdown", [])]]; [.get]
    raises [AttributeError] on anything but a dict. *)
Definition breakdown_column (k : string) (energy : pyval) : option (list pyval) :=
  match energy with
  | VDict d =>
      items ← py_iter (dict_get d "monthly_breakdown" (VList []));
      mapM (py_getitem k) items
  | _ => None
  end.

(** What [ReportDownloadView] answers. *)
Inductive download :=
  | PdfAttachment (filename : string) (body : string)
  | ServerError (text : string) (status : Z).

(** The libraries behind [ReportDownloadView.get]: the matplotlib figure
    of the revenue over the months, encoded by [plot_to_base64]; Django's
    [render_to_string]; and [pisa.CreatePDF].  [None] is a raised
    exception. *)
Class Renderer := {
  plot_revenue : list pyval → list pyval → option string;
  render_to_string : string → context → option string;
  create_pdf : string → option string
}.

Section Download.
Context {renderer : Renderer}.

(** The body of the [try] of [ReportDownloadView.get]. *)
Definition build_report (db : gmap Z LandAnalysis) (analysis_id : Z)
  : option download :=
  a ← db !! analysis_id;
  let energy := py_or (energy_results a) (VDict ∅) in
  months ← breakdown_column "month" energy;
  revenue ← breakdown_column "revenue" energy;
  plot_img ← plot_revenue months revenue;
  html ← render_to_string "potential_app/report_template.html"
           (mkContext a
              (py_or (soil_data a) (VDict ∅))
              (py_or (crop_recommendations a) (VList []))
              energy
              (Some plot_img));
  body ← create_pdf html;
  Some (PdfAttachment ("report_" +:+ pretty analysis_id +:+ ".pdf") body).

(** [ReportDownloadView.get], after its two imports: every exception of
    the [try], [DoesNotExist] included, ends in the same answer with
    status 500.  The figure is created before the two series are read; as
    every failure ends in the same answer, the order is not observable. *)
Definition report_download (db : gmap Z LandAnalysis) (analysis_id : Z)
  : download :=
  try_except (build_report db analysis_id)
             (ServerError "PDF generation error" 500).

End Download.

(** ** Proposals and bonds: [ProposalDetailView] of [views_business.py] *)

Module Business.

(** The fields of the [Proposal] model that the view reads and writes;
    users and the analysis are referred to by their ids. *)
Record Proposal := mkProposal {
  landowner : Z;
  builder : Z;
  land_analysis : Z;
  message : string;
  status : string;
  builder_response_message : option string;
  investment_choice : option string
}.

Inductive level := Success | Error.

(** The tables the view touches and the messages it leaves for the next
    page.  [hasattr(proposal, 'bond')] is read as the reverse side of a
    one-to-one relation: a proposal has at most one bond, and [bonds] maps
    the id of a proposal to the content of its bond. *)
Record Store := mkStore {
  proposals : gmap Z Proposal;
  bonds : gmap Z string;
  analyses : gmap Z LandAnalysis;
  flash : list (level * string)
}.

(** What lies outside the view: the user names, the rendering of a
    coordinate by [str], and [get_investment_choice_display] with the
    choices of the model. *)
Class Texts := {
  username : Z → string;
  show_float : Q → string;
  investment_choice_display : option string → string
}.

Inductive reply :=
  | RedirectDashboard
  | RedirectProposalDetail (proposal_id : Z)
  | RenderProposalDetail (p : Proposal)
  | NotFound.

Definition add_message (lvl : level) (text : string) (s : Store) : Store :=
  mkStore (proposals s) (bonds s) (analyses s) (flash s ++ [(lvl, text)]).

(** [proposal.save()] *)
Definition save_proposal (proposal_id : Z) (p : Proposal) (s : Store) : Store :=
  mkStore (<[proposal_id := p]> (proposals s)) (bonds s) (analyses s) (flash s).

Definition set_builder_answer (p : Proposal) (new_status text : string) : Proposal :=
  mkProposal (landowner p) (builder p) (land_analysis p) (message p)
    new_status (Some text) (investment_choice p).

Definition set_investment_choice (p : Proposal) (choice : string) : Proposal :=
  mkProposal (landowner p) (builder p) (land_analysis p) (message p)
    (status p) (builder_response_message p) (Some choice).

Definition nl : string := String (Ascii.ascii_of_nat 10) EmptyString.

Section Views.
Context {texts : Texts}.

(** The f-string of [create_bond]; [now] is the rendering of
    [timezone.now()]. *)
Definition bond_content (now : string) (p : Proposal) (a : LandAnalysis) : string :=
  "LEGAL BOND AGREEMENT" +:+ nl +:+ nl +:+
  "Date: " +:+ now +:+ nl +:+
  "Landowner: " +:+ username (landowner p) +:+ nl +:+
  "Builder: " +:+ username (builder p) +:+ nl +:+
  "Land Coordinates: " +:+ show_float (latitude a) +:+ ", " +:+
  show_float (longitude a) +:+ nl +:+
  "Investment Model: " +:+ investment_choice_display (investment_choice p)
  +:+ nl +:+ nl +:+
  "Terms: Land usage for solar PV development...".

(** [create_bond]: nothing happens when the proposal has a bond.  [None]
    is the exception raised when the analysis of the proposal cannot be
    read. *)
Definition create_bond (now : string) (proposal_id : Z) (p : Proposal)
    (s : Store) : option Store :=
  match bonds s !! proposal_id with
  | Some _ => Some s
  | None =>
      a ← analyses s !! land_analysis p;
      Some (add_message Success "Bond generated successfully!"
              (mkStore (proposals s)
                 (<[proposal_id := bond_content now p a]> (bonds s))
                 (analyses s) (flash s)))
  end.

(** [ProposalDetailView.get] for a logged-in user. *)
Definition proposal_get (user : Z) (proposal_id : Z) (s : Store)
  : reply * Store :=
  match proposals s !! proposal_id with
  | None => (NotFound, s)
  | Some p =>
      if bool_decide (user ∉ [builder p; landowner p])
      then (RedirectDashboard, add_message Error "Access denied." s)
      else (RenderProposalDetail p, s)
  end.

(** The landowner's choice: saved first, then the bond.  An exception in
    [create_bond] leaves the view with the choice already saved. *)
Definition choose (now : string) (proposal_id : Z) (p : Proposal)
    (choice : string) (s : Store) : option reply * Store :=
  let p' := set_investment_choice p choice in
  let saved := save_proposal proposal_id p' s in
  match create_bond now proposal_id p' saved with
  | Some s' => (Some (RedirectProposalDetail proposal_id), s')
  | None => (None, saved)
  end.

(** [ProposalDetailView.post] for a logged-in user; [action] is
    [request.POST.get('action')].  A reply [None] is an exception that
    leaves the view. *)
Definition proposal_post (user : Z) (action : option string) (now : string)
    (proposal_id : Z) (s : Store) : option reply * Store :=
  match proposals s !! proposal_id with
  | None => (Some NotFound, s)
  | Some p =>
      if bool_decide (user = builder p) then
        let p' :=
          if bool_decide (action = Some "accept")
          then set_builder_answer p "accepted" "Proposal accepted."
          else if bool_decide (action = Some "reject")
          then set_builder_answer p "rejected" "Proposal rejected."
          else p in
        (Some (RedirectProposalDetail proposal_id),
         save_proposal proposal_id p' s)
      else if bool_decide (user = landowner p) then
        if bool_decide (action = Some "choose_self")
        then choose now proposal_id p "self_invest" s
        else if bool_decide (action = Some "choose_builder")
        then choose now proposal_id p "builder_invest" s
        else (Some (RedirectProposalDetail proposal_id), s)
      else (Some (RedirectProposalDetail proposal_id), s)
  end.

End Views.

End Business.

(** ** Further sample data *)

(** The energy estimation answers with a list instead of a dict. *)
Definition stages_energy_list : Stages :=
  {| get_soil_data := λ _ _, Some (VDict sample_raw_soil);
     recommend_crops := λ _, None;
     estimate_energy_potential := λ _ _ _ _ _ _ _ _, Some (VList [VNum 1]);
     estimate_agri_revenue := λ _ _, None;
     calculate_mixed_potential := λ _ _ _, None |}.

(** A bucket with an energy of its own and a null [pv_energy_kwh]. *)
Definition sample_null_bucket : gmap string pyval :=
  <["pv_energy_kwh" := VNone]> (<["energy" := VNum 10]> ∅).

Definition sample_null_estimate : gmap string pyval :=
  <["monthly_breakdown" := VList [VDict sample_null_bucket]]> ∅.

Definition stages_null_bucket : Stages :=
  {| get_soil_data := λ _ _, Some (VDict sample_raw_soil);
     recommend_crops := λ _, None;
     estimate_energy_potential := λ _ _ _ _ _ _ _ _,
       Some (VDict sample_null_estimate);
     estimate_agri_revenue := λ _ _, None;
     calculate_mixed_potential := λ _ _ _, None |}.

(** The soil fetch answers with a null, and with a text. *)
Definition stages_no_soil : Stages :=
  {| get_soil_data := λ _ _, Some VNone;
     recommend_crops := λ _, None;
     estimate_energy_potential := λ _ _ _ _ _ _ _ _, None;
     estimate_agri_revenue := λ _ _, None;
     calculate_mixed_potential := λ _ _ _, None |}.

Definition stages_soil_text : Stages :=
  {| get_soil_data := λ _ _, Some (VStr "unavailable");
     recommend_crops := λ _, None;
     estimate_energy_potential := λ _ _ _ _ _ _ _ _, None;
     estimate_agri_revenue := λ _ _, None;
     calculate_mixed_potential := λ _ _ _, None |}.

(** A record with the five keys of a normalised month. *)
Definition sample_complete_record : gmap string pyval :=
  <["month" := VStr "2024-02"]> (
  <["energy" := VNum 350]> (
  <["revenue" := VNum 1750]> (
  <["pv_energy_kwh" := VNum 320]> (
  <["wind_energy_kwh" := VNum 30]> ∅)))).

(** A stored breakdown whose record has a revenue and no month. *)
Definition sample_monthless_record : gmap string pyval :=
  <["revenue" := VNum 5]> ∅.

Definition sample_monthless_document : gmap string pyval :=
  <["monthly_breakdown" := VList [VDict sample_monthless_record]]> ∅.

Definition sample_monthless_db : gmap Z LandAnalysis :=
  {[ 1%Z := set_results sample_analysis VNone VNone
               (VDict sample_monthless_document) ]}.

(** A stored document that is a list. *)
Definition sample_list_db : gmap Z LandAnalysis :=
  {[ 1%Z := set_results sample_analysis VNone VNone (VList [VNum 1]) ]}.

Definition sample_renderer : Renderer :=
  {| plot_revenue := λ _ _, Some "plot";
     render_to_string := λ _ _, Some "html";
     create_pdf := λ _, Some "pdf" |}.

Definition sample_texts : Business.Texts :=
  {| Business.username := λ u, "user" +:+ pretty u;
     Business.show_float := λ _, "0.0";
     Business.investment_choice_display := λ c, default "" c |}.

(** A proposal of landowner 1 to builder 2, not answered yet. *)
Definition sample_proposal : Business.Proposal :=
  Business.mkProposal 1 2 1 "Solar on my land" "pending_builder" None None.

Definition sample_store : Business.Store :=
  Business.mkStore {[ 7%Z := sample_proposal ]} ∅ sample_db [].

Definition sample_store_bonded : Business.Store :=
  Business.mkStore {[ 7%Z := sample_proposal ]} {[ 7%Z := "bond" ]} sample_db [].

(** ** Dictionaries: lookups after [get] and the loops *)

Lemma dict_get_Some d k v dflt : d !! k = Some v → dict_get d k dflt = v.
Proof. unfold dict_get. by intros ->. Qed.

Lemma dict_get_None d k dflt : d !! k = None → dict_get d k dflt = dflt.
Proof. unfold dict_get. by intros ->. Qed.

(** The loop over [raw_soil.items()] assigns each key once, so it is the
    pointwise image of the fetched mapping. *)
Lemma build_soil_data_fmap raw_soil :
  build_soil_data raw_soil = soil_layers <$> raw_soil.
Proof.
  unfold build_soil_data.
  apply (map_fold_weak_ind (λ r m, r = soil_layers <$> m)).
  - by rewrite fmap_empty.
  - intros prop value m r _ ->. by rewrite fmap_insert.
Qed.

Lemma build_soil_data_lookup raw_soil prop :
  build_soil_data raw_soil !! prop = soil_layers <$> raw_soil !! prop.
Proof. by rewrite build_soil_data_fmap, lookup_fmap. Qed.

(** ** One month *)

Lemma py_add_numbers a b :
  is_number a = true → is_number b = true →
  ∃ x y, as_number a = Some x ∧ as_number b = Some y ∧
         py_add a b = Some (VNum (x + y)).
Proof.
  unfold is_number. intros Ha Hb.
  destruct (as_number a) as [x|] eqn:Ea; [|done].
  destruct (as_number b) as [y|] eqn:Eb; [|done].
  exists x, y. repeat split.
  destruct a; try done; destruct b; try done; simpl in *; congruence.
Qed.

Lemma month_record_lookup month energy revenue pv wind :
  let r := month_record month energy revenue pv wind in
  r !! "month" = Some month ∧ r !! "energy" = Some energy ∧
  r !! "revenue" = Some revenue ∧ r !! "pv_energy_kwh" = Some pv ∧
  r !! "wind_energy_kwh" = Some wind.
Proof. unfold month_record. repeat split; by simplify_map_eq. Qed.

Lemma month_record_dom month energy revenue pv wind :
  dom (month_record month energy revenue pv wind) = month_keys.
Proof.
  unfold month_record, month_keys.
  rewrite !dom_insert_L, dom_empty_L. set_solver.
Qed.

Lemma month_record_get month energy revenue pv wind dflt :
  let r := month_record month energy revenue pv wind in
  dict_get r "month" dflt = month ∧ dict_get r "energy" dflt = energy ∧
  dict_get r "revenue" dflt = revenue ∧ dict_get r "pv_energy_kwh" dflt = pv ∧
  dict_get r "wind_energy_kwh" dflt = wind.
Proof.
  destruct (month_record_lookup month energy revenue pv wind)
    as (Hm & He & Hr & Hp & Hw).
  repeat split; by apply dict_get_Some.
Qed.

Lemma normalize_month_inv item m :
  normalize_month item = Some m →
  ∃ d total,
    item = VDict d ∧
    py_add (dict_get d "pv_energy_kwh" (VNum 0))
           (dict_get d "wind_energy_kwh" (VNum 0)) = Some total ∧
    m = VDict (month_record
        (dict_get d "month" (VStr ""))
        (dict_get d "energy" total)
        (dict_get d "revenue" (dict_get d "revenue_inr" (VNum 0)))
        (dict_get d "pv_energy_kwh" (VNum 0))
        (dict_get d "wind_energy_kwh" (VNum 0))).
Proof.
  destruct item; try done. simpl.
  destruct (py_add _ _) as [total|] eqn:E; [|done].
  simpl. intros [= <-]. by exists d, total.
Qed.

Lemma normalize_month_bucket item :
  energy_bucket item = true → is_Some (normalize_month item).
Proof.
  destruct item; try done. simpl.
  intros [Hp Hw]%andb_prop.
  destruct (py_add_numbers _ _ Hp Hw) as (x & y & _ & _ & ->). by eexists.
Qed.

Lemma normalize_month_idem item m :
  normalize_month item = Some m → normalize_month m = Some m.
Proof.
  intros (d & total & -> & Hadd & ->)%normalize_month_inv.
  set (r := month_record _ _ _ _ _).
  unfold normalize_month.
  destruct (month_record_get (dict_get d "month" (VStr ""))
              (dict_get d "energy" total)
              (dict_get d "revenue" (dict_get d "revenue_inr" (VNum 0)))
              (dict_get d "pv_energy_kwh" (VNum 0))
              (dict_get d "wind_energy_kwh" (VNum 0)) (VNum 0))
    as (_ & _ & _ & Hp & Hw).
  fold r in Hp, Hw. rewrite Hp, Hw, Hadd. simpl.
  do 2 f_equal; subst r; unfold month_record, dict_get; by simplify_map_eq.
Qed.

Lemma normalize_months_Forall2 items months :
  normalize_months items = Some months ↔
  Forall2 (λ item m, normalize_month item = Some m) items months.
Proof. apply mapM_Some. Qed.

Lemma normalize_months_buckets items :
  Forall (λ item, energy_bucket item = true) items →
  is_Some (normalize_months items).
Proof.
  intros H. apply mapM_is_Some.
  eapply Forall_impl; [exact H|]. intros item Hb. by apply normalize_month_bucket.
Qed.

(** ** The monthly breakdown *)

(** C2.  On every list of buckets whose energies are numbers, the
    normalisation returns one record per bucket, in order, and each record
    carries [pv_energy_kwh] and [wind_energy_kwh] (0 when absent),
    [energy] (the supplied value, else the sum of the two energies) and
    [revenue] (the supplied value, else [revenue_inr], else 0): none of the
    four keys is missing from any record. *)
Theorem monthly_breakdown_defaults (items : list pyval) :
  Forall (λ item, energy_bucket item = true) items →
  ∃ months,
    normalize_months items = Some months ∧
    Forall2 (λ item m,
      ∃ d out pv wind,
        item = VDict d ∧ m = VDict out ∧
        as_number (dict_get d "pv_energy_kwh" (VNum 0)) = Some pv ∧
        as_number (dict_get d "wind_energy_kwh" (VNum 0)) = Some wind ∧
        out !! "pv_energy_kwh" = Some (dict_get d "pv_energy_kwh" (VNum 0)) ∧
        out !! "wind_energy_kwh" = Some (dict_get d "wind_energy_kwh" (VNum 0)) ∧
        (∀ e, d !! "energy" = Some e → out !! "energy" = Some e) ∧
        (d !! "energy" = None → out !! "energy" = Some (VNum (pv + wind))) ∧
        (∀ r, d !! "revenue" = Some r → out !! "revenue" = Some r) ∧
        (d !! "revenue" = None →
           out !! "revenue" = Some (dict_get d "revenue_inr" (VNum 0))) ∧
        {[ "pv_energy_kwh"; "wind_energy_kwh"; "energy"; "revenue" ]} ⊆ dom out)
      items months.
Proof.
  intros Hb.
  destruct (normalize_months_buckets items Hb) as [months Hm].
  exists months. split; [done|].
  apply normalize_months_Forall2 in Hm.
  induction Hm as [|item m items months Hitem _ IH]; [constructor|].
  apply Forall_cons in Hb as [Hbi Hb].
  constructor; [|by apply IH].
  destruct (normalize_month_inv _ _ Hitem) as (d & total & -> & Hadd & ->).
  apply andb_prop in Hbi as [Hp Hw].
  destruct (py_add_numbers _ _ Hp Hw) as (pv & wind & Epv & Ewind & Hsum).
  rewrite Hsum in Hadd. injection Hadd as <-.
  eexists d, _, pv, wind.
  destruct (month_record_lookup
              (dict_get d "month" (VStr ""))
              (dict_get d "energy" (VNum (pv + wind)))
              (dict_get d "revenue" (dict_get d "revenue_inr" (VNum 0)))
              (dict_get d "pv_energy_kwh" (VNum 0))
              (dict_get d "wind_energy_kwh" (VNum 0)))
    as (_ & He & Hr & Hpv & Hwind).
  split_and!; try done.
  - intros e E. by rewrite He, (dict_get_Some _ _ _ _ E).
  - intros E. by rewrite He, (dict_get_None _ _ _ E).
  - intros r E. by rewrite Hr, (dict_get_Some _ _ _ _ E).
  - intros E. by rewrite Hr, (dict_get_None _ _ _ E).
  - rewrite month_record_dom. unfold month_keys.
    intros k Hk. rewrite !elem_of_union, !elem_of_singleton in *. tauto.
Qed.

(** C8.  Normalising a normalised breakdown changes nothing: a second
    application returns the list of the first, and raises exactly when the
    first does; on buckets whose energies are numbers both return. *)
Theorem normalize_months_idempotent (items : list pyval) :
  (normalize_months items ≫= normalize_months = normalize_months items) ∧
  (Forall (λ item, energy_bucket item = true) items →
   ∃ months, normalize_months items = Some months ∧
             normalize_months months = Some months).
Proof.
  assert (Hidem : ∀ months, normalize_months items = Some months →
                            normalize_months months = Some months).
  { intros months Hm. apply normalize_months_Forall2 in Hm.
    apply normalize_months_Forall2.
    induction Hm as [|item m items' months' Hitem _ IH]; constructor; [|done].
    by eapply normalize_month_idem. }
  split.
  - destruct (normalize_months items) as [months|] eqn:E; [|done].
    simpl. by apply Hidem.
  - intros Hb. destruct (normalize_months_buckets items Hb) as [months Hm].
    exists months. split; [done|]. by apply Hidem.
Qed.

(** Each record the normalisation returns has exactly the five keys of
    [month_keys], and the bucket's [month] or the empty string. *)
Lemma normalize_months_keys (items months : list pyval) :
  normalize_months items = Some months →
  Forall2 (λ item m,
    ∃ d out,
      item = VDict d ∧ m = VDict out ∧
      dom out = month_keys ∧
      (∀ k, k ∉ month_keys → out !! k = None) ∧
      (d !! "month" = None → out !! "month" = Some (VStr "")) ∧
      (∀ v, d !! "month" = Some v → out !! "month" = Some v))
    items months.
Proof.
  intros Hm. apply normalize_months_Forall2 in Hm.
  induction Hm as [|item m items months Hitem _ IH]; constructor; [|done].
  destruct (normalize_month_inv _ _ Hitem) as (d & total & -> & Hadd & ->).
  eexists d, _.
  destruct (month_record_lookup
              (dict_get d "month" (VStr ""))
              (dict_get d "energy" total)
              (dict_get d "revenue" (dict_get d "revenue_inr" (VNum 0)))
              (dict_get d "pv_energy_kwh" (VNum 0))
              (dict_get d "wind_energy_kwh" (VNum 0)))
    as (Hmonth & _).
  split_and!.
  - done.
  - done.
  - apply month_record_dom.
  - intros k Hk. apply not_elem_of_dom. by rewrite month_record_dom.
  - intros E. by rewrite Hmonth, (dict_get_None _ _ _ E).
  - intros v E. by rewrite Hmonth, (dict_get_Some _ _ _ _ E).
Qed.

(** ** Parcel area *)

(** The areas of the pipeline are the two assignments on exact
    rationals. *)
Lemma pipeline_areas_rational (stored_m2 stored_ha : option Q) :
  pipeline_area_m2 stored_m2 stored_ha
  = passed_area_m2 (arith := rational_arithmetic) stored_m2 stored_ha ∧
  pipeline_area_ha (pipeline_area_m2 stored_m2 stored_ha)
  = passed_area_ha (arith := rational_arithmetic)
      (passed_area_m2 (arith := rational_arithmetic) stored_m2 stored_ha).
Proof. split; reflexivity. Qed.

Lemma passed_area_m2_unset {num} {arith : Arithmetic num}
    (stored_m2 stored_ha : option num) :
  stored_unset stored_m2 = true →
  passed_area_m2 stored_m2 stored_ha = passed_from_ha stored_ha.
Proof.
  unfold passed_area_m2, stored_unset.
  destruct stored_m2 as [m|]; [|done].
  by destruct (nonzero m).
Qed.

(** C7, as the code has it, on floats as on exact numbers.  The hectares
    handed on are the area in m² divided by 10000, or 0 when that area is
    zero.  A stored [area_m2] that is not zero, a negative one included,
    is handed on as it is, with its ten-thousandth as the hectares.  With
    [area_m2] absent or zero and a stored [area_ha] that is not zero, the
    area in m² is [area_ha × 10000].  With each stored field absent or
    zero, both areas are 0. *)
Theorem passed_areas {num} {arith : Arithmetic num}
    (stored_m2 stored_ha : option num) :
  let m2 := passed_area_m2 stored_m2 stored_ha in
  let ha := passed_area_ha m2 in
  ha = (if nonzero m2 then divided_by m2 ten_thousand else zero) ∧
  (∀ m, stored_m2 = Some m → nonzero m = true →
     m2 = m ∧ ha = divided_by m ten_thousand) ∧
  (stored_unset stored_m2 = true →
   ∀ h, stored_ha = Some h → nonzero h = true → m2 = times h ten_thousand) ∧
  (stored_unset stored_m2 = true → stored_unset stored_ha = true →
     m2 = zero ∧ ha = zero).
Proof.
  intros m2 ha. split_and!.
  - reflexivity.
  - intros m -> Hm.
    assert (Hm2 : m2 = m) by (subst m2; simpl; by rewrite Hm).
    split; [done|]. subst ha. unfold passed_area_ha. by rewrite Hm2, Hm.
  - intros Hunset h -> Hh. subst m2.
    rewrite (passed_area_m2_unset _ _ Hunset). simpl. by rewrite Hh.
  - intros Hm Hh.
    assert (Hm2 : m2 = zero).
    { subst m2. rewrite (passed_area_m2_unset _ _ Hm).
      unfold passed_from_ha, stored_unset in *.
      destruct stored_ha as [h|]; [|done]. by destruct (nonzero h). }
    split; [done|]. subst ha. unfold passed_area_ha.
    by rewrite Hm2, zero_is_falsy.
Qed.

(** C7, as the specification has it, fails on floats in both its parts.
    A stored area of 3 m² gives 0.0003 ha, and 0.0003 × 10000 is
    2.9999999999999996, that is 3 - 2^-51, which is not 3.  A stored area
    of -5 m² is not positive, and is handed on as -5 m² and -0.0005 ha,
    neither of which is 0. *)
Lemma area_claim_fails_on_floats :
  (let m2 := passed_area_m2 (arith := float_arithmetic)
               (Some (binary64_of_Z 3)) None in
   let ha := passed_area_ha (arith := float_arithmetic) m2 in
   m2 = S754_finite false 6755399441055744 (-51) ∧
   binary64_mul ha (binary64_of_Z 10000)
   = S754_finite false 6755399441055743 (-51) ∧
   SFeqb m2 (binary64_mul ha (binary64_of_Z 10000)) = false) ∧
  (let m2 := passed_area_m2 (arith := float_arithmetic)
               (Some (binary64_of_Z (-5))) None in
   let ha := passed_area_ha (arith := float_arithmetic) m2 in
   float_not_positive (Some (binary64_of_Z (-5))) = true ∧
   float_not_positive None = true ∧
   SFeqb m2 (binary64_of_Z 0) = false ∧
   SFeqb ha (binary64_of_Z 0) = false).
Proof. repeat split; reflexivity. Qed.

(** ** The pipeline *)

Lemma py_or_falsy v dflt : truthy v = false → py_or v dflt = dflt.
Proof. unfold py_or. by intros ->. Qed.

Lemma py_or_dict d : py_or (VDict d) (VDict ∅) = VDict d.
Proof.
  unfold py_or. simpl. case_bool_decide as E; simpl; [by rewrite E | done].
Qed.

Lemma normalize_energy_empty :
  normalize_energy (VDict ∅) = Some zero_energy_document.
Proof. reflexivity. Qed.

Lemma zero_energy_document_lookup :
  zero_energy_document !! "total_energy_kwh" = Some (VNum 0) ∧
  zero_energy_document !! "pv_energy_kwh" = Some (VNum 0) ∧
  zero_energy_document !! "wind_energy_kwh" = Some (VNum 0) ∧
  zero_energy_document !! "total_revenue" = Some (VNum 0) ∧
  zero_energy_document !! "monthly_breakdown" = Some (VList []) ∧
  zero_energy_document !! "hourly_plot" = Some (VStr "") ∧
  zero_energy_document !! "daily_plot" = Some (VStr "").
Proof. split_and!; reflexivity. Qed.

Lemma setdefault_dom k v (d : gmap string pyval) :
  dom (setdefault k v d) = {[ k ]} ∪ dom d.
Proof.
  unfold setdefault. destruct (d !! k) eqn:E.
  - apply elem_of_dom_2 in E. symmetry.
    by apply subseteq_union_1_L, singleton_subseteq_l.
  - by rewrite dom_insert_L.
Qed.

Lemma zero_energy_document_dom :
  dom zero_energy_document
  = {[ "total_energy_kwh"; "pv_energy_kwh"; "wind_energy_kwh"; "total_revenue";
       "monthly_breakdown"; "hourly_plot"; "daily_plot" ]}.
Proof.
  unfold zero_energy_document, energy_defaults.
  rewrite dom_insert_L, !setdefault_dom, dom_empty_L. set_solver.
Qed.

(** The two entries added last leave the other keys of the document as
    they are. *)
Lemma final_document_lookup (energy : gmap string pyval) agri mixed k :
  k ≠ "agri_revenue" → k ≠ "mixed_analysis" →
  (<["mixed_analysis" := mixed]> (<["agri_revenue" := agri]> energy)) !! k
  = energy !! k.
Proof. intros Ha Hm. by rewrite !lookup_insert_ne. Qed.

Section PipelineProperties.
Context {stages : Stages}.

Lemma try_or_no_data (outcome : option pyval) dflt :
  no_data outcome = true →
  try_except (v ← outcome; Some (py_or v dflt)) dflt = dflt.
Proof.
  destruct outcome as [v|]; simpl; [|done].
  intros Hv. apply py_or_falsy. by destruct (truthy v).
Qed.

Lemma crop_stage_no_data soil :
  no_data (recommend_crops (VDict soil)) = true → crop_stage soil = VList [].
Proof. apply try_or_no_data. Qed.

Lemma energy_stage_no_data a :
  no_data (energy_call a) = true → energy_stage a = VDict ∅.
Proof. apply try_or_no_data. Qed.

Lemma agri_stage_no_data crops ha :
  no_data (estimate_agri_revenue crops ha) = true →
  agri_stage crops ha = default_agri_revenue.
Proof. apply try_or_no_data. Qed.

Lemma soil_stage_dict a raw_soil :
  get_soil_data (latitude a) (longitude a) = Some (VDict raw_soil) →
  soil_stage a = Some (build_soil_data raw_soil).
Proof. unfold soil_stage. intros ->. simpl. by rewrite py_or_dict. Qed.

Lemma soil_stage_falsy a v :
  get_soil_data (latitude a) (longitude a) = Some v → truthy v = false →
  soil_stage a = Some ∅.
Proof.
  unfold soil_stage. intros -> Hv. simpl. by rewrite (py_or_falsy _ _ Hv).
Qed.

(** The record a run saves, once the soil stage and the normalisation
    of the energy results have gone through. *)
Lemma run_pipeline_saves a soil energy :
  soil_stage a = Some soil →
  normalize_energy (energy_stage a) = Some energy →
  let crops := crop_stage soil in
  let ha := pipeline_area_ha (pipeline_area_m2 (area_m2 a) (area_ha a)) in
  let agri := agri_stage crops ha in
  let mixed := mixed_stage (VDict energy) agri ha in
  run_pipeline a =
    Some (set_results a (VDict soil) crops
            (VDict (<["mixed_analysis" := mixed]>
                      (<["agri_revenue" := agri]> energy)))).
Proof.
  intros Hs He. unfold run_pipeline, after_crops. rewrite Hs. simpl.
  by rewrite He.
Qed.

Lemma run_pipeline_inv a a' :
  run_pipeline a = Some a' →
  ∃ soil energy,
    soil_stage a = Some soil ∧
    normalize_energy (energy_stage a) = Some energy ∧
    let crops := crop_stage soil in
    let ha := pipeline_area_ha (pipeline_area_m2 (area_m2 a) (area_ha a)) in
    let agri := agri_stage crops ha in
    let mixed := mixed_stage (VDict energy) agri ha in
    a' = set_results a (VDict soil) crops
           (VDict (<["mixed_analysis" := mixed]>
                     (<["agri_revenue" := agri]> energy))).
Proof.
  unfold run_pipeline, after_crops.
  destruct (soil_stage a) as [soil|]; [|done]. simpl.
  destruct (normalize_energy (energy_stage a)) as [energy|]; [|done]. simpl.
  intros [= <-]. by exists soil, energy.
Qed.

Lemma process_analysis_saved db analysis_id a a' :
  db !! analysis_id = Some a → run_pipeline a = Some a' →
  process_analysis db analysis_id
  = (RedirectResults analysis_id, <[analysis_id := a']> db).
Proof. unfold process_analysis. by intros -> ->. Qed.

Lemma process_analysis_aborted db analysis_id a :
  db !! analysis_id = Some a → run_pipeline a = None →
  process_analysis db analysis_id = (RedirectIndex, db).
Proof. unfold process_analysis. by intros -> ->. Qed.

Lemma normalize_energy_inv energy doc :
  normalize_energy energy = Some doc →
  ∃ estimated items months,
    energy = VDict estimated ∧
    py_iter (dict_get (energy_defaults estimated) "monthly_breakdown" (VList []))
    = Some items ∧
    normalize_months items = Some months ∧
    doc = <["monthly_breakdown" := VList months]> (energy_defaults estimated).
Proof.
  destruct energy as [| | | | |estimated]; try done. simpl.
  destruct (py_iter _) as [items|] eqn:Hiter; [|done]. simpl.
  destruct (normalize_months items) as [months|] eqn:Hmonths; [|done]. simpl.
  intros [= <-]. by exists estimated, items, months.
Qed.

(** C1.  The failure of the soil fetch is not caught by any local
    handler: when [get_soil_data] raises, the view redirects to the
    index and the stored analyses are unchanged, so that no result
    document is saved. *)
Theorem soil_fetch_failure_aborts db analysis_id a :
  db !! analysis_id = Some a →
  get_soil_data (latitude a) (longitude a) = None →
  run_pipeline a = None ∧
  process_analysis db analysis_id = (RedirectIndex, db).
Proof.
  intros Ha Hraise.
  assert (Hrun : run_pipeline a = None).
  { unfold run_pipeline, soil_stage. by rewrite Hraise. }
  split; [done|]. by apply process_analysis_aborted with a.
Qed.

(** C3.  When the gateway returns a mapping, the soil stage returns and
    the soil data of a saved run is its result; there a property fetched
    as a dict is kept as it is, and a property fetched as any other value
    is a dict with exactly the layers 0-5cm, 5-15cm and 15-30cm, each
    holding that value. *)
Theorem soil_scalar_broadcast a raw_soil :
  get_soil_data (latitude a) (longitude a) = Some (VDict raw_soil) →
  ∃ soil,
    soil_stage a = Some soil ∧
    (∀ a', run_pipeline a = Some a' → soil_data a' = VDict soil) ∧
    dom soil = dom raw_soil ∧
    ∀ prop value, raw_soil !! prop = Some value →
      (is_dict value = true → soil !! prop = Some value) ∧
      (is_dict value = false →
       ∃ layers,
         soil !! prop = Some (VDict layers) ∧
         layers !! "0-5cm" = Some value ∧
         layers !! "5-15cm" = Some value ∧
         layers !! "15-30cm" = Some value ∧
         dom layers = {[ "0-5cm"; "5-15cm"; "15-30cm" ]}).
Proof.
  intros Hfetch. exists (build_soil_data raw_soil).
  pose proof (soil_stage_dict a raw_soil Hfetch) as Hsoil.
  split_and!.
  - done.
  - intros a' (soil & energy & Hs & _ & ->)%run_pipeline_inv.
    rewrite Hsoil in Hs. by injection Hs as <-.
  - by rewrite build_soil_data_fmap, dom_fmap_L.
  - intros prop value Hprop.
    rewrite build_soil_data_lookup, Hprop. simpl. unfold soil_layers.
    split; intros ->; [done|].
    eexists. split; [done|].
    split_and!; [by simplify_map_eq..|].
    rewrite !dom_insert_L, dom_empty_L. set_solver.
Qed.

(** C4.  When the soil stage has returned and the energy estimation
    raises or returns a falsy value, the run is saved and the view
    redirects to the results; the saved document has zero
    [total_energy_kwh], [pv_energy_kwh], [wind_energy_kwh] and
    [total_revenue], an empty [monthly_breakdown], empty plots, and the
    [agri_revenue] and [mixed_analysis] entries. *)
Theorem energy_failure_zero_result db analysis_id a soil :
  db !! analysis_id = Some a →
  soil_stage a = Some soil →
  no_data (energy_call a) = true →
  ∃ a' doc,
    run_pipeline a = Some a' ∧
    process_analysis db analysis_id
    = (RedirectResults analysis_id, <[analysis_id := a']> db) ∧
    energy_results a' = VDict doc ∧
    doc !! "total_energy_kwh" = Some (VNum 0) ∧
    doc !! "pv_energy_kwh" = Some (VNum 0) ∧
    doc !! "wind_energy_kwh" = Some (VNum 0) ∧
    doc !! "total_revenue" = Some (VNum 0) ∧
    doc !! "monthly_breakdown" = Some (VList []) ∧
    doc !! "hourly_plot" = Some (VStr "") ∧
    doc !! "daily_plot" = Some (VStr "") ∧
    is_Some (doc !! "agri_revenue") ∧
    is_Some (doc !! "mixed_analysis") ∧
    dom doc = {[ "total_energy_kwh"; "pv_energy_kwh"; "wind_energy_kwh";
                 "total_revenue"; "monthly_breakdown"; "hourly_plot";
                 "daily_plot"; "agri_revenue"; "mixed_analysis" ]}.
Proof.
  intros Ha Hsoil Hfail.
  pose proof (energy_stage_no_data a Hfail) as Hstage.
  assert (Hnorm : normalize_energy (energy_stage a) = Some zero_energy_document).
  { rewrite Hstage. apply normalize_energy_empty. }
  pose proof (run_pipeline_saves a soil _ Hsoil Hnorm) as Hrun.
  cbv zeta in Hrun.
  destruct zero_energy_document_lookup as (H1 & H2 & H3 & H4 & H5 & H6 & H7).
  eexists _, _. split; [exact Hrun|].
  split; [by apply process_analysis_saved with a|].
  split; [reflexivity|].
  split_and!.
  1-7: by rewrite final_document_lookup.
  - rewrite lookup_insert_ne by done. rewrite lookup_insert_eq. by eexists.
  - rewrite lookup_insert_eq. by eexists.
  - rewrite !dom_insert_L, zero_energy_document_dom. set_solver.
Qed.

(** C5.  The crop stage always yields a value: once the soil data is
    built, when [recommend_crops] raises or returns a falsy value, on
    whatever soil data, the recommendations are the empty list, the run
    goes on with the remaining stages on that list, and every saved run
    stores it. *)
Theorem crop_failure_empty_list a soil :
  soil_stage a = Some soil →
  no_data (recommend_crops (VDict soil)) = true →
  crop_stage soil = VList [] ∧
  run_pipeline a = after_crops a soil (VList []) ∧
  (∀ energy, normalize_energy (energy_stage a) = Some energy →
     ∃ a', run_pipeline a = Some a' ∧ crop_recommendations a' = VList []) ∧
  (∀ a', run_pipeline a = Some a' → crop_recommendations a' = VList []).
Proof.
  intros Hsoil Hfail.
  pose proof (crop_stage_no_data soil Hfail) as Hcrops.
  split_and!.
  - done.
  - unfold run_pipeline. rewrite Hsoil. simpl. by rewrite Hcrops.
  - intros energy Hnorm.
    eexists. split; [by apply (run_pipeline_saves a soil energy)|].
    simpl. exact Hcrops.
  - intros a' (soil' & energy & Hs & _ & ->)%run_pipeline_inv.
    rewrite Hsoil in Hs. injection Hs as <-. simpl. exact Hcrops.
Qed.

(** C9.  When the run reaches the agri-revenue stage and that stage
    raises or returns a falsy value, the run is saved and the
    [agri_revenue] entry of its document is the dict whose only key is
    [details], holding the empty list. *)
Theorem agri_failure_details_only a soil energy :
  soil_stage a = Some soil →
  normalize_energy (energy_stage a) = Some energy →
  no_data (estimate_agri_revenue (crop_stage soil)
             (pipeline_area_ha (pipeline_area_m2 (area_m2 a) (area_ha a))))
  = true →
  ∃ a' doc agri,
    run_pipeline a = Some a' ∧
    energy_results a' = VDict doc ∧
    doc !! "agri_revenue" = Some (VDict agri) ∧
    agri = {[ "details" := VList [] ]} ∧
    dom agri = {[ "details" ]} ∧
    (∀ k, k ≠ "details" → agri !! k = None).
Proof.
  intros Hsoil Hnorm Hfail.
  pose proof (run_pipeline_saves a soil energy Hsoil Hnorm) as Hrun.
  cbv zeta in Hrun. rewrite (agri_stage_no_data _ _ Hfail) in Hrun.
  eexists _, _, _. split; [exact Hrun|].
  split; [reflexivity|].
  split.
  { rewrite lookup_insert_ne by done. rewrite lookup_insert_eq.
    unfold default_agri_revenue. reflexivity. }
  split_and!.
  - by rewrite insert_empty.
  - by rewrite dom_insert_L, dom_empty_L, union_empty_r_L.
  - intros k Hk. by rewrite lookup_insert_ne.
Qed.

(** C10.  In the document of every saved run, [monthly_breakdown] is a
    list with one record per bucket of the breakdown the energy stage
    came with; each record has exactly the keys [month], [energy],
    [revenue], [pv_energy_kwh] and [wind_energy_kwh], whatever other
    keys its bucket has, and its [month] is the bucket's, or the empty
    string when the bucket has none. *)
Theorem saved_monthly_breakdown_keys a a' :
  run_pipeline a = Some a' →
  ∃ estimated items doc months,
    energy_stage a = VDict estimated ∧
    py_iter (dict_get (energy_defaults estimated) "monthly_breakdown" (VList []))
    = Some items ∧
    energy_results a' = VDict doc ∧
    doc !! "monthly_breakdown" = Some (VList months) ∧
    Forall2 (λ item m,
      ∃ d out,
        item = VDict d ∧ m = VDict out ∧
        dom out = month_keys ∧
        (∀ k, k ∉ month_keys → out !! k = None) ∧
        (d !! "month" = None → out !! "month" = Some (VStr "")) ∧
        (∀ v, d !! "month" = Some v → out !! "month" = Some v))
      items months.
Proof.
  intros (soil & energy & Hsoil & Hnorm & ->)%run_pipeline_inv.
  destruct (normalize_energy_inv _ _ Hnorm)
    as (estimated & items & months & Hstage & Hiter & Hmonths & ->).
  exists estimated, items. eexists _, months.
  split_and!.
  - done.
  - done.
  - reflexivity.
  - rewrite final_document_lookup by done. by rewrite lookup_insert_eq.
  - by apply normalize_months_keys.
Qed.

End PipelineProperties.

(** ** The scenario optimiser *)

Section ScenarioProperties.
Import ScenarioOptimizer.
Local Open Scope Q_scope.

Lemma Qlt_bool_lt x y : Qlt_bool x y = true → x < y.
Proof.
  unfold Qlt_bool. intros Hlt. apply Qnot_le_lt. intros Hle.
  apply Qle_bool_iff in Hle. by rewrite Hle in Hlt.
Qed.

Lemma preferred_true s best :
  preferred s best = true → revenue best <= revenue s.
Proof.
  unfold preferred. intros [Hlt | [Heq _]%andb_prop]%orb_prop.
  - by apply Qlt_le_weak, Qlt_bool_lt.
  - apply Qeq_bool_iff in Heq. rewrite Heq. apply Qle_refl.
Qed.

Lemma preferred_false s best :
  preferred s best = false → revenue s <= revenue best.
Proof.
  unfold preferred, Qlt_bool. intros [Hlt _]%orb_false_elim.
  apply Qle_bool_iff. by destruct (Qle_bool (revenue s) (revenue best)).
Qed.

Lemma best_of_elem candidates best :
  best_of candidates best ∈ best :: candidates.
Proof.
  revert best. induction candidates as [|s rest IH]; intros best; simpl.
  - apply list_elem_of_here.
  - specialize (IH (if preferred s best then s else best)).
    apply elem_of_cons in IH as [-> | Hin].
    + destruct (preferred s best).
      * apply list_elem_of_further, list_elem_of_here.
      * apply list_elem_of_here.
    + by do 2 apply list_elem_of_further.
Qed.

Lemma best_of_bound candidates best :
  revenue best <= revenue (best_of candidates best) ∧
  Forall (λ s, revenue s <= revenue (best_of candidates best)) candidates.
Proof.
  revert best. induction candidates as [|s rest IH]; intros best; simpl.
  - split; [apply Qle_refl | constructor].
  - destruct (IH (if preferred s best then s else best)) as [Hb Hrest].
    destruct (preferred s best) eqn:E.
    + apply preferred_true in E.
      split; [by eapply Qle_trans | by constructor].
    + apply preferred_false in E.
      split; [done | constructor; [by eapply Qle_trans | done]].
Qed.

(** C6.  For every energy result and agri revenue result the optimiser
    returns the five scenarios of the fractions 0, 1/4, 1/2, 3/4 and 1,
    in this order, each with the agriculture share [1 - f] and the
    revenue [f × total_revenue + (1 - f) × aggregate_revenue]; the best
    scenario is one of the five and no scenario has a greater revenue.
    With revenues 1000 and 600 on 10 ha the five revenues are 600, 700,
    800, 900 and 1000, and the best scenario is that of fraction 1. *)
Theorem optimize_scenarios :
  (∀ e a area_ha,
     let r := optimize e a area_ha in
     map energy_fraction (scenarios r) = [0; 1 # 4; 1 # 2; 3 # 4; 1] ∧
     Forall (λ s,
               agri_fraction s == 1 - energy_fraction s ∧
               revenue s == energy_fraction s * total_revenue e
                            + (1 - energy_fraction s) * aggregate_revenue a)
            (scenarios r) ∧
     best_scenario r ∈ scenarios r ∧
     Forall (λ s, revenue s <= revenue (best_scenario r)) (scenarios r)) ∧
  (let r := optimize {| total_revenue := 1000 |} {| aggregate_revenue := 600 |} 10 in
   map (λ s, (energy_fraction s, Qred (revenue s))) (scenarios r)
   = [(0, 600); (1 # 4, 700); (1 # 2, 800); (3 # 4, 900); (1, 1000)] ∧
   energy_fraction (best_scenario r) = 1 ∧
   Qred (revenue (best_scenario r)) = 1000).
Proof.
  split.
  - intros e a area_ha r. split_and!.
    + reflexivity.
    + subst r. simpl. repeat constructor.
    + subst r. unfold optimize. cbn [scenarios best_scenario].
      pose proof (best_of_elem (map (scenario_for e a) allocation_fractions)
                    (scenario_for e a 0)) as Hin.
      apply elem_of_cons in Hin as [-> | Hin]; [apply list_elem_of_here | done].
    + apply best_of_bound.
  - by vm_compute.
Qed.

(** With no revenue on either side every scenario ties, and the best
    one is the even split. *)
Lemma optimize_degenerate :
  energy_fraction
    (best_scenario (optimize {| total_revenue := 0 |} {| aggregate_revenue := 0 |} 10))
  = 1 # 2.
Proof. reflexivity. Qed.

End ScenarioProperties.


(** ** The sample runs *)

(** With every stage raising, the sample analysis is not saved. *)
Lemma soil_fetch_failure_aborts_sample :
  run_pipeline (stages := stages_offline) sample_analysis = None ∧
  process_analysis (stages := stages_offline) sample_db 1
  = (RedirectIndex, sample_db).
Proof.
  apply (soil_fetch_failure_aborts (stages := stages_offline)
           sample_db 1 sample_analysis); reflexivity.
Defined.

(** The two sample buckets are normalised into two records. *)
Lemma monthly_breakdown_defaults_sample :
  ∃ months, normalize_months sample_months = Some months ∧ length months = 2%nat.
Proof.
  destruct (monthly_breakdown_defaults sample_months) as (months & Hm & Hall).
  - repeat constructor.
  - exists months. split; [exact Hm|].
    symmetry. exact (Forall2_length _ _ _ Hall).
Defined.

(** The scalar pH of the sample soil is stored under each layer. *)
Lemma soil_scalar_broadcast_sample :
  ∃ soil layers,
    soil_stage (stages := stages_soil_only) sample_analysis = Some soil ∧
    soil !! "phh2o" = Some (VDict layers) ∧
    layers !! "0-5cm" = Some (VNum (65 # 10)) ∧
    layers !! "5-15cm" = Some (VNum (65 # 10)) ∧
    layers !! "15-30cm" = Some (VNum (65 # 10)).
Proof.
  destruct (soil_scalar_broadcast (stages := stages_soil_only)
              sample_analysis sample_raw_soil)
    as (soil & Hsoil & _ & _ & Hprops); [reflexivity|].
  destruct (Hprops "phh2o" (VNum (65 # 10))) as [_ Hscalar]; [reflexivity|].
  destruct Hscalar as (layers & Hl & H1 & H2 & H3 & _); [reflexivity|].
  exists soil, layers.
  exact (conj Hsoil (conj Hl (conj H1 (conj H2 H3)))).
Defined.

(** With the energy estimation raising, the sample run saves zeros. *)
Lemma energy_failure_zero_result_sample :
  ∃ a' doc,
    run_pipeline (stages := stages_soil_only) sample_analysis = Some a' ∧
    energy_results a' = VDict doc ∧
    doc !! "total_energy_kwh" = Some (VNum 0) ∧
    doc !! "total_revenue" = Some (VNum 0) ∧
    doc !! "monthly_breakdown" = Some (VList []).
Proof.
  destruct (energy_failure_zero_result (stages := stages_soil_only)
              sample_db 1 sample_analysis (build_soil_data sample_raw_soil))
    as (a' & doc & Hrun & _ & Hdoc & Htotal & _ & _ & Hrev & Hmonths & _);
    [reflexivity..|].
  exists a', doc.
  exact (conj Hrun (conj Hdoc (conj Htotal (conj Hrev Hmonths)))).
Defined.

(** With [recommend_crops] raising, the sample run saves an empty list. *)
Lemma crop_failure_empty_list_sample :
  ∃ a',
    run_pipeline (stages := stages_soil_only) sample_analysis = Some a' ∧
    crop_recommendations a' = VList [].
Proof.
  destruct (crop_failure_empty_list (stages := stages_soil_only)
              sample_analysis (build_soil_data sample_raw_soil))
    as (_ & _ & Hsaved & _); [reflexivity..|].
  apply (Hsaved zero_energy_document). reflexivity.
Defined.

(** On floats: -5 m² is handed on as it is, two hectares alone give
    their product with 10000, and a zero area gives zero areas. *)
Lemma passed_areas_sample :
  passed_area_m2 (arith := float_arithmetic) (Some (binary64_of_Z (-5))) None
  = binary64_of_Z (-5) ∧
  passed_area_m2 (arith := float_arithmetic) None (Some (binary64_of_Z 2))
  = binary64_mul (binary64_of_Z 2) (binary64_of_Z 10000) ∧
  passed_area_ha (arith := float_arithmetic)
    (passed_area_m2 (arith := float_arithmetic) (Some (binary64_of_Z 0)) None)
  = binary64_of_Z 0.
Proof.
  destruct (passed_areas (arith := float_arithmetic)
              (Some (binary64_of_Z (-5))) None)
    as (_ & Hstored & _).
  destruct (passed_areas (arith := float_arithmetic)
              None (Some (binary64_of_Z 2)))
    as (_ & _ & Hderived & _).
  destruct (passed_areas (arith := float_arithmetic)
              (Some (binary64_of_Z 0)) None)
    as (_ & _ & _ & Hzero).
  split_and!.
  - exact (proj1 (Hstored (binary64_of_Z (-5)) eq_refl eq_refl)).
  - exact (Hderived eq_refl (binary64_of_Z 2) eq_refl eq_refl).
  - exact (proj2 (Hzero eq_refl eq_refl)).
Defined.

(** The sample buckets are normalised to a fixed point. *)
Lemma normalize_months_idempotent_sample :
  ∃ months, normalize_months sample_months = Some months ∧
            normalize_months months = Some months.
Proof.
  destruct (normalize_months_idempotent sample_months) as [_ Hboth].
  apply Hboth. repeat constructor.
Defined.

(** With the agri estimation raising, the sample run saves [details] alone. *)
Lemma agri_failure_details_only_sample :
  ∃ a' doc,
    run_pipeline (stages := stages_soil_only) sample_analysis = Some a' ∧
    energy_results a' = VDict doc ∧
    doc !! "agri_revenue" = Some (VDict {[ "details" := VList [] ]}).
Proof.
  destruct (agri_failure_details_only (stages := stages_soil_only)
              sample_analysis (build_soil_data sample_raw_soil)
              zero_energy_document)
    as (a' & doc & agri & Hrun & Hdoc & Hagri & -> & _);
    [reflexivity..|].
  exists a', doc. exact (conj Hrun (conj Hdoc Hagri)).
Defined.

(** With every stage answering, the sample run saves a breakdown. *)
Lemma saved_monthly_breakdown_keys_sample :
  ∃ a' doc months,
    run_pipeline (stages := stages_online) sample_analysis = Some a' ∧
    energy_results a' = VDict doc ∧
    doc !! "monthly_breakdown" = Some (VList months).
Proof.
  assert (∃ a', run_pipeline (stages := stages_online) sample_analysis = Some a')
    as [a' Hrun] by (eexists; reflexivity).
  destruct (saved_monthly_breakdown_keys (stages := stages_online)
              sample_analysis a' Hrun)
    as (_ & _ & doc & months & _ & _ & Hdoc & Hmonths & _).
  exists a', doc, months. exact (conj Hrun (conj Hdoc Hmonths)).
Defined.

(** ** The pipeline: what a run keeps and when it aborts *)

Lemma setdefault_lookup_Some k k' v dflt (d : gmap string pyval) :
  d !! k = Some v → setdefault k' dflt d !! k = Some v.
Proof.
  intros Hk. unfold setdefault. destruct (d !! k') eqn:E; [done|].
  rewrite lookup_insert_ne; [done|]. intros ->. congruence.
Qed.

Lemma setdefault_lookup_None k dflt (d : gmap string pyval) :
  d !! k = None → setdefault k dflt d !! k = Some dflt.
Proof. intros Hk. unfold setdefault. rewrite Hk. apply lookup_insert_eq. Qed.

Lemma setdefault_lookup_ne k k' dflt (d : gmap string pyval) :
  k ≠ k' → setdefault k' dflt d !! k = d !! k.
Proof.
  intros Hne. unfold setdefault. destruct (d !! k'); [done|].
  by rewrite lookup_insert_ne.
Qed.

Lemma setdefault_present k v dflt (d : gmap string pyval) :
  d !! k = Some v → setdefault k dflt d = d.
Proof. intros Hk. unfold setdefault. by rewrite Hk. Qed.

Lemma energy_defaults_lookup_Some k v d :
  d !! k = Some v → energy_defaults d !! k = Some v.
Proof.
  intros Hk. unfold energy_defaults. by do 7 apply setdefault_lookup_Some.
Qed.

Lemma energy_defaults_dom d :
  dom (energy_defaults d)
  = {[ "total_energy_kwh"; "pv_energy_kwh"; "wind_energy_kwh"; "total_revenue";
       "monthly_breakdown"; "hourly_plot"; "daily_plot" ]} ∪ dom d.
Proof.
  unfold energy_defaults. rewrite !setdefault_dom.
  apply set_eq. intros k. rewrite !elem_of_union, !elem_of_singleton. tauto.
Qed.

Lemma truthy_dict_lookup (d : gmap string pyval) k v :
  d !! k = Some v → truthy (VDict d) = true.
Proof.
  intros Hk. simpl. case_bool_decide as E; [|done].
  rewrite E, lookup_empty in Hk. done.
Qed.

Lemma normalize_month_fixed d :
  dom d = month_keys →
  is_Some (py_add (dict_get d "pv_energy_kwh" (VNum 0))
                  (dict_get d "wind_energy_kwh" (VNum 0))) →
  normalize_month (VDict d) = Some (VDict d).
Proof.
  intros Hdom [total Hadd]. simpl. rewrite Hadd. simpl. do 2 f_equal.
  assert (Hin : ∀ k, k ∈ month_keys → ∃ v, d !! k = Some v).
  { intros k Hk. rewrite <- Hdom in Hk. by apply elem_of_dom in Hk. }
  destruct (Hin "month") as [vm Em]; [unfold month_keys; set_solver|].
  destruct (Hin "energy") as [ve Ee]; [unfold month_keys; set_solver|].
  destruct (Hin "revenue") as [vr Er]; [unfold month_keys; set_solver|].
  destruct (Hin "pv_energy_kwh") as [vp Ep]; [unfold month_keys; set_solver|].
  destruct (Hin "wind_energy_kwh") as [vw Ew]; [unfold month_keys; set_solver|].
  rewrite (dict_get_Some _ _ _ _ Em), (dict_get_Some _ _ _ _ Ee),
    (dict_get_Some _ _ _ _ Er), (dict_get_Some _ _ _ _ Ep),
    (dict_get_Some _ _ _ _ Ew).
  apply map_eq. intros k. unfold month_record.
  destruct (decide (k = "month")) as [->|]; [by rewrite lookup_insert_eq|].
  rewrite lookup_insert_ne by done.
  destruct (decide (k = "energy")) as [->|]; [by rewrite lookup_insert_eq|].
  rewrite lookup_insert_ne by done.
  destruct (decide (k = "revenue")) as [->|]; [by rewrite lookup_insert_eq|].
  rewrite lookup_insert_ne by done.
  destruct (decide (k = "pv_energy_kwh")) as [->|]; [by rewrite lookup_insert_eq|].
  rewrite lookup_insert_ne by done.
  destruct (decide (k = "wind_energy_kwh")) as [->|]; [by rewrite lookup_insert_eq|].
  rewrite lookup_insert_ne by done. rewrite lookup_empty. symmetry.
  apply not_elem_of_dom. rewrite Hdom. unfold month_keys.
  rewrite !elem_of_union, !elem_of_singleton. tauto.
Qed.

(** X1.  The records the normalisation leaves as they are are exactly the
    dicts with the five keys of a month whose two energies can be added:
    such a record is returned unchanged, and no other value is. *)
Theorem normalize_month_fixed_points (item : pyval) :
  normalize_month item = Some item ↔
  ∃ d, item = VDict d ∧ dom d = month_keys ∧
       is_Some (py_add (dict_get d "pv_energy_kwh" (VNum 0))
                       (dict_get d "wind_energy_kwh" (VNum 0))).
Proof.
  split.
  - intros Hfix.
    destruct (normalize_month_inv _ _ Hfix) as (d & total & -> & Hadd & Heq).
    exists d. split; [done|]. split; [|by eexists].
    injection Heq as Heq. rewrite Heq at 1. apply month_record_dom.
  - intros (d & -> & Hdom & Hadd). by apply normalize_month_fixed.
Qed.

Lemma normalize_month_non_numeric d v :
  d !! "pv_energy_kwh" = Some v →
  is_number v = false →
  is_number (dict_get d "wind_energy_kwh" (VNum 0)) = true →
  normalize_month (VDict d) = None.
Proof.
  intros Hpv Hv Hw. simpl. rewrite (dict_get_Some _ _ _ _ Hpv).
  assert (py_add v (dict_get d "wind_energy_kwh" (VNum 0)) = None) as ->; [|done].
  unfold is_number in *.
  destruct (as_number (dict_get d "wind_energy_kwh" (VNum 0))) as [y|] eqn:Ey;
    [|done].
  destruct (as_number v) as [x|] eqn:Ex; [done|].
  destruct v; try done; destruct (dict_get d "wind_energy_kwh" (VNum 0));
    simpl in *; try done; by rewrite ?Ex, ?Ey.
Qed.

(** The stored area in m² wins over the stored hectares. *)
Lemma pipeline_area_m2_stored m stored_ha :
  num_truthy m = true → pipeline_area_m2 (Some m) stored_ha = m.
Proof. unfold pipeline_area_m2. by intros ->. Qed.

Section PipelineCoverage.
Context {stages : Stages}.

Lemma energy_stage_truthy a v :
  energy_call a = Some v → truthy v = true → energy_stage a = v.
Proof.
  intros Hcall Hv. unfold energy_stage. rewrite Hcall. simpl.
  unfold py_or. by rewrite Hv.
Qed.

Lemma crop_stage_or soil :
  py_or (crop_stage soil) (VList []) = crop_stage soil.
Proof.
  unfold crop_stage. destruct (recommend_crops (VDict soil)) as [found|]; simpl.
  - unfold py_or. destruct (truthy found) eqn:E; [by rewrite E | done].
  - done.
Qed.

Lemma run_pipeline_set_results a soil crops energy :
  run_pipeline (set_results a soil crops energy) = run_pipeline a.
Proof. reflexivity. Qed.

Lemma process_analysis_inv db analysis_id db' :
  process_analysis db analysis_id = (RedirectResults analysis_id, db') →
  ∃ a a', db !! analysis_id = Some a ∧ run_pipeline a = Some a' ∧
          db' = <[analysis_id := a']> db.
Proof.
  unfold process_analysis.
  destruct (db !! analysis_id) as [a|]; [|done].
  destruct (run_pipeline a) as [a'|] eqn:E; [|done].
  intros [= <-]. by exists a, a'.
Qed.

(** X3.  Processing one analysis never adds or removes a stored analysis
    and leaves every other analysis as it is; when the view answers with
    the redirect to the index, also for an unknown id, nothing at all is
    changed; and the redirect to the results names the processed id. *)
Theorem process_analysis_frame db analysis_id :
  let r := (process_analysis db analysis_id).1 in
  let db' := (process_analysis db analysis_id).2 in
  dom db' = dom db ∧
  (∀ other, other ≠ analysis_id → db' !! other = db !! other) ∧
  (r = RedirectIndex → db' = db) ∧
  (db !! analysis_id = None → r = RedirectIndex) ∧
  (∀ shown, r = RedirectResults shown → shown = analysis_id).
Proof.
  unfold process_analysis.
  destruct (db !! analysis_id) as [a|] eqn:Ha; [|by simpl].
  destruct (run_pipeline a) as [a'|]; simpl; [|done].
  split_and!.
  - rewrite dom_insert_L. apply elem_of_dom_2 in Ha.
    by apply subseteq_union_1_L, singleton_subseteq_l.
  - intros other Hne. by rewrite lookup_insert_ne.
  - done.
  - done.
  - by intros shown [= <-].
Qed.

(** X4.  A run reads none of the results stored by an earlier run, and
    the record it saves differs from the one it loaded in the three
    result fields only: coordinates, dates, areas and the configuration
    are saved as they were loaded. *)
Theorem run_pipeline_inputs a :
  (∀ soil crops energy,
     run_pipeline (set_results a soil crops energy) = run_pipeline a) ∧
  (∀ a', run_pipeline a = Some a' →
     a' = set_results a (soil_data a') (crop_recommendations a')
            (energy_results a') ∧
     run_pipeline a' = Some a').
Proof.
  split; [done|].
  intros a' Hrun.
  destruct (run_pipeline_inv a a' Hrun) as (soil & energy & _ & _ & Ha').
  cbv zeta in Ha'. subst a'. split; [reflexivity | exact Hrun].
Qed.

(** X5.  In the document of a saved run every entry that the energy
    estimation came with, under a key other than [monthly_breakdown],
    [agri_revenue] and [mixed_analysis], has the value it came with, also
    a falsy one and also under a key the view does not know; each of the
    six defaulted keys that is missing has its default; and the nine keys
    of the document are all present. *)
Theorem saved_document_entries a a' :
  run_pipeline a = Some a' →
  ∃ estimated doc,
    energy_stage a = VDict estimated ∧
    energy_results a' = VDict doc ∧
    (∀ k v, estimated !! k = Some v →
       k ≠ "monthly_breakdown" → k ≠ "agri_revenue" → k ≠ "mixed_analysis" →
       doc !! k = Some v) ∧
    (estimated !! "total_energy_kwh" = None → doc !! "total_energy_kwh" = Some (VNum 0)) ∧
    (estimated !! "pv_energy_kwh" = None → doc !! "pv_energy_kwh" = Some (VNum 0)) ∧
    (estimated !! "wind_energy_kwh" = None → doc !! "wind_energy_kwh" = Some (VNum 0)) ∧
    (estimated !! "total_revenue" = None → doc !! "total_revenue" = Some (VNum 0)) ∧
    (estimated !! "hourly_plot" = None → doc !! "hourly_plot" = Some (VStr "")) ∧
    (estimated !! "daily_plot" = None → doc !! "daily_plot" = Some (VStr "")) ∧
    dom doc = {[ "total_energy_kwh"; "pv_energy_kwh"; "wind_energy_kwh";
                 "total_revenue"; "monthly_breakdown"; "hourly_plot";
                 "daily_plot"; "agri_revenue"; "mixed_analysis" ]} ∪ dom estimated.
Proof.
  intros (soil & energy & Hsoil & Hnorm & ->)%run_pipeline_inv.
  destruct (normalize_energy_inv _ _ Hnorm)
    as (estimated & items & months & Hstage & _ & _ & ->).
  exists estimated. eexists. split; [done|]. split; [reflexivity|].
  assert (Hdflt : ∀ k dflt,
            k ≠ "monthly_breakdown" → k ≠ "agri_revenue" → k ≠ "mixed_analysis" →
            energy_defaults estimated !! k = Some dflt →
            (<["mixed_analysis" := mixed_stage
                 (VDict (<["monthly_breakdown" := VList months]>
                           (energy_defaults estimated)))
                 (agri_stage (crop_stage soil)
                    (pipeline_area_ha (pipeline_area_m2 (area_m2 a) (area_ha a))))
                 (pipeline_area_ha (pipeline_area_m2 (area_m2 a) (area_ha a)))]>
               (<["agri_revenue" := agri_stage (crop_stage soil)
                    (pipeline_area_ha (pipeline_area_m2 (area_m2 a) (area_ha a)))]>
                  (<["monthly_breakdown" := VList months]>
                     (energy_defaults estimated)))) !! k = Some dflt).
  { intros k dflt H1 H2 H3 Hk.
    rewrite final_document_lookup by done. by rewrite lookup_insert_ne. }
  split_and!.
  - intros k v Hk H1 H2 H3. apply Hdflt; [done..|].
    by apply energy_defaults_lookup_Some.
  - intros E. apply Hdflt; [done..|]. unfold energy_defaults.
    rewrite !setdefault_lookup_ne by done. by apply setdefault_lookup_None.
  - intros E. apply Hdflt; [done..|]. unfold energy_defaults.
    rewrite !setdefault_lookup_ne by done. apply setdefault_lookup_None.
    by rewrite !setdefault_lookup_ne.
  - intros E. apply Hdflt; [done..|]. unfold energy_defaults.
    rewrite !setdefault_lookup_ne by done. apply setdefault_lookup_None.
    by rewrite !setdefault_lookup_ne.
  - intros E. apply Hdflt; [done..|]. unfold energy_defaults.
    rewrite !setdefault_lookup_ne by done. apply setdefault_lookup_None.
    by rewrite !setdefault_lookup_ne.
  - intros E. apply Hdflt; [done..|]. unfold energy_defaults.
    rewrite !setdefault_lookup_ne by done. apply setdefault_lookup_None.
    by rewrite !setdefault_lookup_ne.
  - intros E. apply Hdflt; [done..|]. unfold energy_defaults.
    apply setdefault_lookup_None. by rewrite !setdefault_lookup_ne.
  - rewrite !dom_insert_L, energy_defaults_dom.
    apply set_eq. intros k. rewrite !elem_of_union, !elem_of_singleton. tauto.
Qed.

Lemma run_pipeline_aborts a :
  normalize_energy (energy_stage a) = None → run_pipeline a = None.
Proof.
  intros Hnorm. unfold run_pipeline, after_crops.
  destruct (soil_stage a); [|done]. simpl. by rewrite Hnorm.
Qed.

(** X2.  When the energy estimation answers with a breakdown holding a
    bucket whose [pv_energy_kwh] is present and not a number (a null,
    say), while its [wind_energy_kwh] is a number or absent, the
    normalisation raises even if the bucket has an [energy] of its own:
    the run is not saved and the view redirects to the index. *)
Theorem non_numeric_energy_aborts db analysis_id a estimated items d v :
  db !! analysis_id = Some a →
  energy_call a = Some (VDict estimated) →
  estimated !! "monthly_breakdown" = Some (VList items) →
  VDict d ∈ items →
  d !! "pv_energy_kwh" = Some v →
  is_number v = false →
  is_number (dict_get d "wind_energy_kwh" (VNum 0)) = true →
  normalize_months items = None ∧
  run_pipeline a = None ∧
  process_analysis db analysis_id = (RedirectIndex, db).
Proof.
  intros Ha Hcall Hitems Hin Hpv Hv Hw.
  assert (Hraise : normalize_months items = None).
  { apply mapM_None, Exists_exists. exists (VDict d). split; [done|].
    by eapply normalize_month_non_numeric. }
  assert (Hrun : run_pipeline a = None).
  { apply run_pipeline_aborts.
    rewrite (energy_stage_truthy a _ Hcall (truthy_dict_lookup _ _ _ Hitems)).
    simpl.
    rewrite (dict_get_Some _ _ _ _
               (energy_defaults_lookup_Some _ _ _ Hitems)).
    simpl. by rewrite Hraise. }
  split; [done|]. split; [done|]. by apply process_analysis_aborted with a.
Qed.

(** X6.  When the energy estimation answers with a truthy value that is
    not a dict, or with a dict whose [monthly_breakdown] cannot be
    iterated (a null, a number or a boolean), no local handler applies:
    the run is not saved and the view redirects to the index. *)
Theorem malformed_energy_aborts db analysis_id a v :
  db !! analysis_id = Some a →
  energy_call a = Some v →
  (truthy v = true ∧ is_dict v = false) ∨
  (∃ estimated breakdown,
     v = VDict estimated ∧ estimated !! "monthly_breakdown" = Some breakdown ∧
     py_iter breakdown = None) →
  run_pipeline a = None ∧
  process_analysis db analysis_id = (RedirectIndex, db).
Proof.
  intros Ha Hcall Hbad.
  assert (Hrun : run_pipeline a = None).
  { apply run_pipeline_aborts.
    destruct Hbad as [[Hv Hd] | (estimated & breakdown & -> & Hb & Hiter)].
    - rewrite (energy_stage_truthy a v Hcall Hv). by destruct v.
    - rewrite (energy_stage_truthy a _ Hcall (truthy_dict_lookup _ _ _ Hb)).
      simpl.
      rewrite (dict_get_Some _ _ _ _ (energy_defaults_lookup_Some _ _ _ Hb)).
      by rewrite Hiter. }
  split; [done|]. by apply process_analysis_aborted with a.
Qed.

Lemma mixed_stage_no_data energy agri ha :
  no_data (calculate_mixed_potential energy agri ha) = true →
  mixed_stage energy agri ha = default_mixed_analysis.
Proof. apply try_or_no_data. Qed.

(** X7.  When the run reaches the mixed analysis and
    [calculate_mixed_potential] raises or returns a falsy value, the run
    is saved and the [mixed_analysis] entry of its document is the dict
    with an empty list of scenarios and an empty best scenario, and
    nothing else. *)
Theorem mixed_failure_default a soil energy :
  soil_stage a = Some soil →
  normalize_energy (energy_stage a) = Some energy →
  (let ha := pipeline_area_ha (pipeline_area_m2 (area_m2 a) (area_ha a)) in
   no_data (calculate_mixed_potential (VDict energy)
              (agri_stage (crop_stage soil) ha) ha) = true) →
  ∃ a' doc mixed,
    run_pipeline a = Some a' ∧
    energy_results a' = VDict doc ∧
    doc !! "mixed_analysis" = Some (VDict mixed) ∧
    mixed !! "scenarios" = Some (VList []) ∧
    mixed !! "best_scenario" = Some (VDict ∅) ∧
    dom mixed = {[ "scenarios"; "best_scenario" ]}.
Proof.
  intros Hsoil Hnorm Hfail. cbv zeta in Hfail.
  pose proof (run_pipeline_saves a soil energy Hsoil Hnorm) as Hrun.
  cbv zeta in Hrun. rewrite (mixed_stage_no_data _ _ _ Hfail) in Hrun.
  eexists _, _, _. split; [exact Hrun|]. split; [reflexivity|].
  split; [rewrite lookup_insert_eq; reflexivity|].
  split_and!.
  - apply lookup_insert_eq.
  - rewrite lookup_insert_ne by done. apply lookup_insert_eq.
  - by rewrite !dom_insert_L, dom_empty_L, union_empty_r_L.
Qed.

(** X8.  A soil fetch that returns a falsy value (a null, an empty dict)
    counts as no data: the soil data of the run is the empty dict and the
    run goes on.  A soil fetch that returns a truthy value that is not a
    dict stops the run: nothing is saved and the view redirects to the
    index. *)
Theorem soil_fetch_answers db analysis_id a v :
  db !! analysis_id = Some a →
  get_soil_data (latitude a) (longitude a) = Some v →
  (truthy v = false →
     soil_stage a = Some ∅ ∧
     run_pipeline a = after_crops a ∅ (crop_stage ∅) ∧
     ∀ a', run_pipeline a = Some a' → soil_data a' = VDict ∅) ∧
  (truthy v = true → is_dict v = false →
     run_pipeline a = None ∧
     process_analysis db analysis_id = (RedirectIndex, db)).
Proof.
  intros Ha Hfetch. split.
  - intros Hv. pose proof (soil_stage_falsy a v Hfetch Hv) as Hsoil.
    split; [done|]. split.
    + unfold run_pipeline. by rewrite Hsoil.
    + intros a' (soil & energy & Hs & _ & ->)%run_pipeline_inv.
      rewrite Hsoil in Hs. by injection Hs as <-.
  - intros Hv Hd.
    assert (Hrun : run_pipeline a = None).
    { unfold run_pipeline, soil_stage. rewrite Hfetch. simpl.
      unfold py_or. rewrite Hv. by destruct v. }
    split; [done|]. by apply process_analysis_aborted with a.
Qed.

End PipelineCoverage.

(** ** The result pages *)

Lemma results_defaults_present (d : gmap string pyval) agri mixed months :
  d !! "agri_revenue" = Some agri →
  d !! "mixed_analysis" = Some mixed →
  d !! "monthly_breakdown" = Some months →
  results_defaults (VDict d) = Some d.
Proof.
  intros Ha Hm Hb. unfold results_defaults. rewrite py_or_dict.
  by rewrite (setdefault_present _ _ _ _ Ha), (setdefault_present _ _ _ _ Hm),
    (setdefault_present _ _ _ _ Hb).
Qed.

Lemma results_defaults_inv stored doc :
  results_defaults stored = Some doc →
  ∃ d, py_or stored (VDict ∅) = VDict d ∧
       doc = setdefault "monthly_breakdown" (VList []) (
             setdefault "mixed_analysis" (VDict ∅) (
             setdefault "agri_revenue" default_agri_revenue d)).
Proof.
  unfold results_defaults. destruct (py_or stored (VDict ∅)); try done.
  intros [= <-]. by eexists.
Qed.

Lemma py_or_dict_inv stored d :
  py_or stored (VDict ∅) = VDict d →
  (truthy stored = true ∧ stored = VDict d) ∨ (truthy stored = false ∧ d = ∅).
Proof.
  unfold py_or. destruct (truthy stored) eqn:E.
  - intros ->. by left.
  - intros [= <-]. by right.
Qed.

Section PagesAfterProcessing.
Context {stages : Stages}.

(** X9.  After a run that was saved, the results page and the report
    page both show the saved record as it is: the soil data, the crop
    recommendations and the document of the context are the stored ones,
    no default is filled in, and the results page does not raise. *)
Theorem pages_show_saved_run db analysis_id db' :
  process_analysis db analysis_id = (RedirectResults analysis_id, db') →
  ∃ a',
    db' !! analysis_id = Some a' ∧
    results_view db' analysis_id
    = Some (Render "potential_app/results.html"
              (mkContext a' (soil_data a') (crop_recommendations a')
                 (energy_results a') None)) ∧
    report_view db' analysis_id
    = Render "potential_app/report_template.html"
        (mkContext a' (soil_data a') (crop_recommendations a')
           (energy_results a') None).
Proof.
  intros (a & a' & Ha & Hrun & ->)%process_analysis_inv.
  exists a'. split; [apply lookup_insert_eq|].
  destruct (run_pipeline_inv a a' Hrun) as (soil & energy & _ & Hnorm & Ha').
  cbv zeta in Ha'.
  destruct (normalize_energy_inv _ _ Hnorm)
    as (estimated & items & months & _ & _ & _ & Henergy).
  set (ha := pipeline_area_ha (pipeline_area_m2 (area_m2 a) (area_ha a))) in *.
  set (agri := agri_stage (crop_stage soil) ha) in *.
  set (mixed := mixed_stage (VDict energy) agri ha) in *.
  set (doc := <["mixed_analysis" := mixed]> (<["agri_revenue" := agri]> energy)) in *.
  assert (Hmixed : doc !! "mixed_analysis" = Some mixed)
    by apply lookup_insert_eq.
  assert (Hagri : doc !! "agri_revenue" = Some agri).
  { subst doc. rewrite lookup_insert_ne by done. apply lookup_insert_eq. }
  assert (Hmonths : doc !! "monthly_breakdown" = Some (VList months)).
  { subst doc. rewrite final_document_lookup by done.
    rewrite Henergy. apply lookup_insert_eq. }
  assert (Hsoil' : soil_data a' = VDict soil) by (by rewrite Ha').
  assert (Hcrops' : crop_recommendations a' = crop_stage soil) by (by rewrite Ha').
  assert (Henergy' : energy_results a' = VDict doc) by (by rewrite Ha').
  assert (Hshown : set_results a' (soil_data a') (crop_recommendations a')
                     (VDict doc) = a').
  { rewrite Hsoil', Hcrops'. by rewrite Ha'. }
  split.
  - unfold results_view. rewrite lookup_insert_eq.
    rewrite Henergy' at 1.
    rewrite (results_defaults_present doc _ _ _ Hagri Hmixed Hmonths). simpl.
    rewrite Henergy' at 1.
    rewrite (truthy_dict_lookup _ _ _ Hmixed).
    rewrite Hshown.
    rewrite Hsoil' at 1. rewrite py_or_dict.
    rewrite Hcrops' at 1. rewrite crop_stage_or.
    by rewrite <- Hsoil', <- Hcrops', <- Henergy'.
  - unfold report_view. rewrite lookup_insert_eq.
    rewrite Hsoil' at 1. rewrite py_or_dict.
    rewrite Hcrops' at 1. rewrite crop_stage_or.
    rewrite Henergy' at 1. rewrite py_or_dict.
    by rewrite <- Hsoil', <- Hcrops', <- Henergy'.
Qed.

End PagesAfterProcessing.

(** X10.  The results page raises exactly when the stored document is a
    truthy value that is not a dict; an unknown id is answered with the
    redirect to the index. *)
Theorem results_view_raises db analysis_id :
  (results_view db analysis_id = None ↔
   ∃ a, db !! analysis_id = Some a ∧
        truthy (energy_results a) = true ∧ is_dict (energy_results a) = false) ∧
  (db !! analysis_id = None → results_view db analysis_id = Some ToIndex).
Proof.
  unfold results_view, results_defaults, py_or. split.
  - destruct (db !! analysis_id) as [a|]; [|split; [done | by intros (a & ? & _)]].
    split.
    + intros Hnone. exists a. split; [done|].
      destruct (truthy (energy_results a)); [|done].
      split; [done|]. by destruct (energy_results a).
    + intros (a0 & [= <-] & Ht & Hd). rewrite Ht.
      by destruct (energy_results a).
  - by intros ->.
Qed.

(** X11.  Whenever the results page is rendered, the document of its
    context has the entries [agri_revenue], [mixed_analysis] and
    [monthly_breakdown], and every entry of the stored document with the
    value it is stored with.  For an analysis with no stored document (a
    null or an empty dict) the document shown is exactly these three
    entries, with an empty [details] list, an empty dict and an empty
    list, and the analysis handed to the template is the stored one. *)
Theorem results_view_defaults db analysis_id a ctx template :
  db !! analysis_id = Some a →
  results_view db analysis_id = Some (Render template ctx) →
  ∃ doc,
    ctx_energy_results ctx = VDict doc ∧
    is_Some (doc !! "agri_revenue") ∧
    is_Some (doc !! "mixed_analysis") ∧
    is_Some (doc !! "monthly_breakdown") ∧
    (∀ stored k v, energy_results a = VDict stored → stored !! k = Some v →
       doc !! k = Some v) ∧
    (truthy (energy_results a) = false →
       doc = <["monthly_breakdown" := VList []]> (
             <["mixed_analysis" := VDict ∅]> (
             <["agri_revenue" := default_agri_revenue]> ∅)) ∧
       ctx_analysis ctx = a).
Proof.
  intros Ha. unfold results_view. rewrite Ha.
  destruct (results_defaults (energy_results a)) as [doc|] eqn:Hdoc; [|done].
  simpl. intros [= <- <-]. exists doc. split; [done|].
  destruct (results_defaults_inv _ _ Hdoc) as (d & Hor & ->).
  assert (Hkey : ∀ k dflt, is_Some (setdefault k dflt d !! k)).
  { intros k dflt. destruct (d !! k) as [v|] eqn:E.
    - exists v. by apply setdefault_lookup_Some.
    - exists dflt. by apply setdefault_lookup_None. }
  split_and!.
  - destruct (Hkey "agri_revenue" default_agri_revenue) as [v Hv].
    exists v. by do 2 apply setdefault_lookup_Some.
  - set (d1 := setdefault "agri_revenue" default_agri_revenue d).
    destruct (d1 !! "mixed_analysis") as [v|] eqn:E.
    + exists v. by do 2 apply setdefault_lookup_Some.
    + exists (VDict ∅). apply setdefault_lookup_Some.
      by apply setdefault_lookup_None.
  - set (d2 := setdefault "mixed_analysis" _ _).
    destruct (d2 !! "monthly_breakdown") as [v|] eqn:E.
    + exists v. by apply setdefault_lookup_Some.
    + exists (VList []). by apply setdefault_lookup_None.
  - intros stored k v Hstored Hk. rewrite Hstored in Hor.
    rewrite py_or_dict in Hor. injection Hor as <-.
    by do 3 apply setdefault_lookup_Some.
  - intros Hfalsy. rewrite Hfalsy. split; [|done].
    destruct (py_or_dict_inv _ _ Hor) as [[Ht _] | [_ ->]]; [congruence|].
    reflexivity.
Qed.

(** ** The report download *)

Lemma breakdown_column_records k (doc : gmap string pyval) records :
  doc !! "monthly_breakdown" = Some (VList records) →
  breakdown_column k (VDict doc) = mapM (py_getitem k) records.
Proof.
  intros Hb. unfold breakdown_column. by rewrite (dict_get_Some _ _ _ _ Hb).
Qed.

Lemma normalized_column k items records :
  k ∈ month_keys →
  normalize_months items = Some records →
  ∃ column, mapM (py_getitem k) records = Some column ∧
            length column = length records.
Proof.
  intros Hk Hnorm.
  assert (Hall : is_Some (mapM (py_getitem k) records)).
  { apply mapM_is_Some.
    pose proof (normalize_months_keys _ _ Hnorm) as Hkeys. clear Hnorm.
    induction Hkeys as [|item m items' records' Hm _ IH]; constructor.
    - destruct Hm as (d & out & _ & -> & Hdom & _). simpl.
      apply elem_of_dom. by rewrite Hdom.
    - apply IH. }
  destruct Hall as [column Hcol]. exists column. split; [done|].
  symmetry. by eapply length_mapM.
Qed.

Lemma breakdown_column_missing k (doc : gmap string pyval) records r :
  doc !! "monthly_breakdown" = Some (VList records) →
  VDict r ∈ records → r !! k = None →
  breakdown_column k (VDict doc) = None.
Proof.
  intros Hb Hin Hk. rewrite (breakdown_column_records _ _ _ Hb).
  apply mapM_None, Exists_exists. by exists (VDict r).
Qed.

Section DownloadProperties.
Context {stages : Stages} {renderer : Renderer}.

(** X12.  After a run that was saved, the month and the revenue of every
    record of the stored breakdown can be read: the two series of the
    revenue plot have one value per record, and the download answers
    with the attachment [report_<id>.pdf] whenever the plot, the template
    and the PDF library do not raise. *)
Theorem download_after_saved_run db analysis_id db' :
  process_analysis db analysis_id = (RedirectResults analysis_id, db') →
  ∃ a' records months revenue,
    db' !! analysis_id = Some a' ∧
    breakdown_column "month" (energy_results a') = Some months ∧
    breakdown_column "revenue" (energy_results a') = Some revenue ∧
    py_getitem "monthly_breakdown" (energy_results a') = Some (VList records) ∧
    length months = length records ∧
    length revenue = length records ∧
    ∀ plot_img html body,
      plot_revenue months revenue = Some plot_img →
      render_to_string "potential_app/report_template.html"
        (mkContext a' (soil_data a') (crop_recommendations a')
           (energy_results a') (Some plot_img)) = Some html →
      create_pdf html = Some body →
      report_download db' analysis_id
      = PdfAttachment ("report_" +:+ pretty analysis_id +:+ ".pdf") body.
Proof.
  intros (a & a' & Ha & Hrun & ->)%process_analysis_inv.
  destruct (run_pipeline_inv a a' Hrun) as (soil & energy & _ & Hnorm & Ha').
  cbv zeta in Ha'.
  destruct (normalize_energy_inv _ _ Hnorm)
    as (estimated & items & records & _ & _ & Hrecords & Henergy).
  set (ha := pipeline_area_ha (pipeline_area_m2 (area_m2 a) (area_ha a))) in *.
  set (agri := agri_stage (crop_stage soil) ha) in *.
  set (mixed := mixed_stage (VDict energy) agri ha) in *.
  set (doc := <["mixed_analysis" := mixed]> (<["agri_revenue" := agri]> energy)) in *.
  assert (Hb : doc !! "monthly_breakdown" = Some (VList records)).
  { subst doc. rewrite final_document_lookup by done.
    rewrite Henergy. apply lookup_insert_eq. }
  destruct (normalized_column "month" items records) as (months & Hm & Hlm);
    [by unfold month_keys; set_solver | done |].
  destruct (normalized_column "revenue" items records) as (revenue & Hr & Hlr);
    [by unfold month_keys; set_solver | done |].
  exists a', records, months, revenue.
  split; [apply lookup_insert_eq|].
  subst a'. cbn [soil_data crop_recommendations energy_results set_results].
  rewrite !(breakdown_column_records _ _ _ Hb).
  split_and!; [done..|].
  intros plot_img html body Hplot Hhtml Hpdf.
  unfold report_download, build_report. rewrite lookup_insert_eq. simpl.
  rewrite !py_or_dict, crop_stage_or.
  rewrite !(breakdown_column_records _ _ _ Hb), Hm, Hr. simpl.
  rewrite Hplot. simpl. rewrite Hhtml. simpl. by rewrite Hpdf.
Qed.

(** X13.  The download answers an unknown id with the status 500 and not
    with a redirect.  It answers in the same way, whatever the plot and
    PDF libraries do, when a record of the stored breakdown has no
    [month] or no [revenue]. *)
Theorem download_failures db analysis_id :
  (db !! analysis_id = None →
   report_download db analysis_id = ServerError "PDF generation error" 500) ∧
  (∀ a stored records r,
     db !! analysis_id = Some a →
     energy_results a = VDict stored →
     stored !! "monthly_breakdown" = Some (VList records) →
     VDict r ∈ records →
     r !! "month" = None ∨ r !! "revenue" = None →
     report_download db analysis_id = ServerError "PDF generation error" 500).
Proof.
  unfold report_download, build_report. split.
  - by intros ->.
  - intros a stored records r -> Hstored Hb Hin Hmissing. simpl.
    rewrite Hstored, py_or_dict.
    destruct Hmissing as [Hk | Hk].
    + by rewrite (breakdown_column_missing _ _ _ _ Hb Hin Hk).
    + rewrite (breakdown_column_missing "revenue" _ _ _ Hb Hin Hk).
      by destruct (breakdown_column "month" (VDict stored)).
Qed.

End DownloadProperties.

(** ** Proposals and bonds *)

Section ProposalProperties.
Import Business.
Context {texts : Texts}.

Lemma create_bond_frame now proposal_id p s s' :
  create_bond now proposal_id p s = Some s' →
  proposals s' = proposals s ∧ analyses s' = analyses s ∧
  (∀ j c, bonds s !! j = Some c → bonds s' !! j = Some c) ∧
  (∀ j, j ≠ proposal_id → bonds s' !! j = bonds s !! j) ∧
  is_Some (bonds s' !! proposal_id).
Proof.
  unfold create_bond. destruct (bonds s !! proposal_id) as [c|] eqn:Hb.
  - intros [= <-]. split_and!; by eauto.
  - destruct (analyses s !! land_analysis p) as [a|]; [|done]. simpl.
    intros [= <-]. simpl. split_and!; try done.
    + intros j c Hj. rewrite lookup_insert_ne; [done|]. intros ->. congruence.
    + intros j Hj. by rewrite lookup_insert_ne.
    + rewrite lookup_insert_eq. by eexists.
Qed.

Lemma choose_frame now proposal_id p choice s :
  let r := choose now proposal_id p choice s in
  proposals r.2 = <[proposal_id := set_investment_choice p choice]> (proposals s) ∧
  analyses r.2 = analyses s ∧
  (∀ j c, bonds s !! j = Some c → bonds r.2 !! j = Some c) ∧
  (∀ j, j ≠ proposal_id → bonds r.2 !! j = bonds s !! j).
Proof.
  unfold choose.
  destruct (create_bond _ _ _ _) as [s'|] eqn:Hc; simpl; [|done].
  destruct (create_bond_frame _ _ _ _ _ Hc) as (Hp & Ha & Hkeep & Hother & _).
  rewrite Hp, Ha. by split_and!.
Qed.

(** X14.  The page of a proposal is shown to its builder and to its
    landowner and to nobody else: any other user is sent to the dashboard
    with the message "Access denied.", and in no case is a proposal, a
    bond or an analysis changed. *)
Theorem proposal_get_access user proposal_id s p :
  proposals s !! proposal_id = Some p →
  let r := proposal_get user proposal_id s in
  (user = builder p ∨ user = landowner p →
     r = (RenderProposalDetail p, s)) ∧
  (user ≠ builder p → user ≠ landowner p →
     r = (RedirectDashboard, add_message Error "Access denied." s)) ∧
  proposals r.2 = proposals s ∧ bonds r.2 = bonds s ∧ analyses r.2 = analyses s.
Proof.
  intros Hp. unfold proposal_get. rewrite Hp. split_and!.
  - intros Hmember. rewrite bool_decide_eq_false_2; [done|].
    intros Hnot. apply Hnot. rewrite !elem_of_cons. tauto.
  - intros Hb Hl. rewrite bool_decide_eq_true_2; [done|].
    rewrite !elem_of_cons, elem_of_nil. tauto.
  - by case_bool_decide.
  - by case_bool_decide.
  - by case_bool_decide.
Qed.

(** X15.  A posted action of a user who is neither the builder nor the
    landowner of the proposal changes nothing, whatever the action: the
    tables and the messages are as before, and the user is redirected to
    the page of the proposal. *)
Theorem outsider_post_changes_nothing user action now proposal_id s p :
  proposals s !! proposal_id = Some p →
  user ≠ builder p → user ≠ landowner p →
  proposal_post user action now proposal_id s
  = (Some (RedirectProposalDetail proposal_id), s).
Proof.
  intros Hp Hb Hl. unfold proposal_post. rewrite Hp.
  by rewrite !bool_decide_eq_false_2.
Qed.

(** X16.  The builder of a proposal can only answer it: whatever the
    action, and also when the builder is the landowner as well, the
    posted action leaves the bonds, the analyses, the messages and every
    other proposal as they are, and changes at most the status and the
    answer of this proposal; the status becomes [accepted] on [accept],
    [rejected] on [reject], whatever it was before, and stays as it is on
    any other action. *)
Theorem builder_post_answers user action now proposal_id s p :
  proposals s !! proposal_id = Some p →
  user = builder p →
  ∃ p',
    proposal_post user action now proposal_id s
    = (Some (RedirectProposalDetail proposal_id),
       mkStore (<[proposal_id := p']> (proposals s)) (bonds s) (analyses s)
         (flash s)) ∧
    landowner p' = landowner p ∧ builder p' = builder p ∧
    land_analysis p' = land_analysis p ∧ message p' = message p ∧
    investment_choice p' = investment_choice p ∧
    (action = Some "accept" →
       status p' = "accepted" ∧
       builder_response_message p' = Some "Proposal accepted.") ∧
    (action = Some "reject" →
       status p' = "rejected" ∧
       builder_response_message p' = Some "Proposal rejected.") ∧
    (action ≠ Some "accept" → action ≠ Some "reject" → p' = p).
Proof.
  intros Hp Hb. unfold proposal_post. rewrite Hp.
  rewrite (bool_decide_eq_true_2 _ Hb).
  eexists. split; [reflexivity|].
  repeat case_bool_decide; simplify_eq; split_and!; try done.
Qed.

(** X17.  No posted action changes or removes a bond: every bond that
    exists before the action exists after it with the same content, also
    when the landowner changes the investment choice afterwards, and the
    only bond that an action can add is the bond of the proposal it is
    posted to. *)
Theorem bonds_are_kept user action now proposal_id s :
  let s' := (proposal_post user action now proposal_id s).2 in
  (∀ j c, bonds s !! j = Some c → bonds s' !! j = Some c) ∧
  (∀ j, j ≠ proposal_id → bonds s' !! j = bonds s !! j) ∧
  analyses s' = analyses s.
Proof.
  unfold proposal_post.
  destruct (proposals s !! proposal_id) as [p|]; [|done].
  repeat case_bool_decide; simpl; try done;
    destruct (choose_frame now proposal_id p "self_invest" s)
      as (_ & Ha1 & Hk1 & Ho1);
    destruct (choose_frame now proposal_id p "builder_invest" s)
      as (_ & Ha2 & Hk2 & Ho2);
    done.
Qed.

(** X18.  A choice of the landowner (who is not the builder) is recorded
    whatever the status of the proposal, also for a proposal that is
    rejected or not answered: [choose_self] saves [self_invest] and
    [choose_builder] saves [builder_invest], the status and the answer of
    the builder are untouched, and when the proposal has no bond and its
    analysis can be read, the bond is created from the proposal with the
    new choice and a success message is added. *)
Theorem landowner_choice_creates_bond user action choice now proposal_id s p a :
  proposals s !! proposal_id = Some p →
  user = landowner p → user ≠ builder p →
  (action = "choose_self" ∧ choice = "self_invest") ∨
  (action = "choose_builder" ∧ choice = "builder_invest") →
  bonds s !! proposal_id = None →
  analyses s !! land_analysis p = Some a →
  let p' := set_investment_choice p choice in
  proposal_post user (Some action) now proposal_id s
  = (Some (RedirectProposalDetail proposal_id),
     mkStore (<[proposal_id := p']> (proposals s))
       (<[proposal_id := bond_content now p' a]> (bonds s))
       (analyses s)
       (flash s ++ [(Success, "Bond generated successfully!")])) ∧
  status p' = status p ∧
  builder_response_message p' = builder_response_message p ∧
  investment_choice p' = Some choice.
Proof.
  intros Hp Hl Hb Haction Hbond Ha. simpl. split; [|done].
  unfold proposal_post. rewrite Hp.
  rewrite (bool_decide_eq_false_2 _ Hb), (bool_decide_eq_true_2 _ Hl).
  destruct Haction as [[-> ->] | [-> ->]].
  - rewrite bool_decide_eq_true_2 by done.
    unfold choose, create_bond. simpl. rewrite Hbond. simpl. by rewrite Ha.
  - rewrite bool_decide_eq_false_2 by done.
    rewrite bool_decide_eq_true_2 by done.
    unfold choose, create_bond. simpl. rewrite Hbond. simpl. by rewrite Ha.
Qed.

(** X19.  Once a proposal has a bond, a further choice of the landowner
    changes the investment choice of the proposal and nothing else: the
    bond keeps the content it was created with, which states the earlier
    choice, and no message is added. *)
Theorem landowner_rechoice_keeps_bond user action choice now proposal_id s p c :
  proposals s !! proposal_id = Some p →
  user = landowner p → user ≠ builder p →
  (action = "choose_self" ∧ choice = "self_invest") ∨
  (action = "choose_builder" ∧ choice = "builder_invest") →
  bonds s !! proposal_id = Some c →
  proposal_post user (Some action) now proposal_id s
  = (Some (RedirectProposalDetail proposal_id),
     mkStore (<[proposal_id := set_investment_choice p choice]> (proposals s))
       (bonds s) (analyses s) (flash s)).
Proof.
  intros Hp Hl Hb Haction Hbond.
  unfold proposal_post. rewrite Hp.
  rewrite (bool_decide_eq_false_2 _ Hb), (bool_decide_eq_true_2 _ Hl).
  destruct Haction as [[-> ->] | [-> ->]].
  - rewrite bool_decide_eq_true_2 by done.
    unfold choose, create_bond. simpl. by rewrite Hbond.
  - rewrite bool_decide_eq_false_2 by done.
    rewrite bool_decide_eq_true_2 by done.
    unfold choose, create_bond. simpl. by rewrite Hbond.
Qed.

End ProposalProperties.

(** ** The further sample runs *)

(** The complete sample record is returned as it is. *)
Lemma normalize_month_fixed_points_sample :
  normalize_month (VDict sample_complete_record)
  = Some (VDict sample_complete_record).
Proof.
  apply normalize_month_fixed_points. exists sample_complete_record.
  split; [reflexivity|]. split; [|by eexists].
  unfold sample_complete_record, month_keys.
  rewrite !dom_insert_L, dom_empty_L.
  apply set_eq. intros k.
  rewrite !elem_of_union, !elem_of_singleton, elem_of_empty. tauto.
Defined.

(** The null energy of the sample bucket stops the run. *)
Lemma non_numeric_energy_aborts_sample :
  run_pipeline (stages := stages_null_bucket) sample_analysis = None ∧
  process_analysis (stages := stages_null_bucket) sample_db 1
  = (RedirectIndex, sample_db).
Proof.
  destruct (non_numeric_energy_aborts (stages := stages_null_bucket)
              sample_db 1 sample_analysis sample_null_estimate
              [VDict sample_null_bucket] sample_null_bucket VNone)
    as (_ & Hrun & Hview).
  - reflexivity.
  - reflexivity.
  - reflexivity.
  - apply list_elem_of_here.
  - reflexivity.
  - reflexivity.
  - reflexivity.
  - exact (conj Hrun Hview).
Defined.

(** An unknown id leaves the sample analyses as they are. *)
Lemma process_analysis_frame_sample :
  (process_analysis (stages := stages_soil_only) sample_db 2).1 = RedirectIndex ∧
  (process_analysis (stages := stages_soil_only) sample_db 2).2 = sample_db.
Proof.
  destruct (process_analysis_frame (stages := stages_soil_only) sample_db 2)
    as (_ & _ & Hsame & Hunknown & _).
  assert (Hr : (process_analysis (stages := stages_soil_only) sample_db 2).1
               = RedirectIndex) by (apply Hunknown; reflexivity).
  exact (conj Hr (Hsame Hr)).
Defined.

(** The saved sample run is saved again as it is. *)
Lemma run_pipeline_inputs_sample :
  ∃ a', run_pipeline (stages := stages_online) sample_analysis = Some a' ∧
        run_pipeline (stages := stages_online) a' = Some a'.
Proof.
  assert (∃ a', run_pipeline (stages := stages_online) sample_analysis = Some a')
    as [a' Hrun] by (eexists; reflexivity).
  destruct (run_pipeline_inputs (stages := stages_online) sample_analysis)
    as [_ Hsaved].
  destruct (Hsaved a' Hrun) as [_ Hagain].
  exists a'. exact (conj Hrun Hagain).
Defined.

(** The sample estimate keeps its total and gets the default plots. *)
Lemma saved_document_entries_sample :
  ∃ a' doc,
    run_pipeline (stages := stages_online) sample_analysis = Some a' ∧
    energy_results a' = VDict doc ∧
    doc !! "total_energy_kwh" = Some (VNum 690) ∧
    doc !! "hourly_plot" = Some (VStr "").
Proof.
  assert (∃ a', run_pipeline (stages := stages_online) sample_analysis = Some a')
    as [a' Hrun] by (eexists; reflexivity).
  destruct (saved_document_entries (stages := stages_online)
              sample_analysis a' Hrun)
    as (estimated & doc & Hstage & Hdoc & Hkept & _ & _ & _ & _ & Hhourly & _).
  assert (Hest : estimated
                 = <["total_energy_kwh" := VNum 690]> (
                   <["total_revenue" := VNum 3450]> (
                   <["monthly_breakdown" := VList sample_months]> ∅))).
  { change (VDict (<["total_energy_kwh" := VNum 690]> (
                   <["total_revenue" := VNum 3450]> (
                   <["monthly_breakdown" := VList sample_months]> ∅)))
            = VDict estimated) in Hstage.
    by injection Hstage. }
  exists a', doc. split; [exact Hrun|]. split; [exact Hdoc|]. split.
  - apply Hkept; [rewrite Hest; reflexivity | discriminate..].
  - apply Hhourly. rewrite Hest. reflexivity.
Defined.

(** A list in place of the energy document stops the sample run. *)
Lemma malformed_energy_aborts_sample :
  run_pipeline (stages := stages_energy_list) sample_analysis = None ∧
  process_analysis (stages := stages_energy_list) sample_db 1
  = (RedirectIndex, sample_db).
Proof.
  apply (malformed_energy_aborts (stages := stages_energy_list)
           sample_db 1 sample_analysis (VList [VNum 1])).
  - reflexivity.
  - reflexivity.
  - left. split; reflexivity.
Defined.

(** With the mixed analysis raising, the sample run saves its default. *)
Lemma mixed_failure_default_sample :
  ∃ a' doc mixed,
    run_pipeline (stages := stages_soil_only) sample_analysis = Some a' ∧
    energy_results a' = VDict doc ∧
    doc !! "mixed_analysis" = Some (VDict mixed) ∧
    mixed !! "scenarios" = Some (VList []).
Proof.
  destruct (mixed_failure_default (stages := stages_soil_only)
              sample_analysis (build_soil_data sample_raw_soil)
              zero_energy_document)
    as (a' & doc & mixed & Hrun & Hdoc & Hmixed & Hscen & _);
    [reflexivity..|].
  exists a', doc, mixed. exact (conj Hrun (conj Hdoc (conj Hmixed Hscen))).
Defined.

(** A null from the soil fetch gives empty soil data; a text stops the
    sample run. *)
Lemma soil_fetch_answers_sample :
  soil_stage (stages := stages_no_soil) sample_analysis = Some ∅ ∧
  run_pipeline (stages := stages_soil_text) sample_analysis = None.
Proof.
  destruct (soil_fetch_answers (stages := stages_no_soil)
              sample_db 1 sample_analysis VNone) as [Hfalsy _];
    [reflexivity..|].
  destruct (soil_fetch_answers (stages := stages_soil_text)
              sample_db 1 sample_analysis (VStr "unavailable")) as [_ Htext];
    [reflexivity..|].
  destruct (Hfalsy eq_refl) as (Hsoil & _).
  destruct (Htext eq_refl eq_refl) as (Hrun & _).
  exact (conj Hsoil Hrun).
Defined.

(** The results page of the saved sample run. *)
Lemma pages_show_saved_run_sample :
  ∃ db' a',
    process_analysis (stages := stages_online) sample_db 1
    = (RedirectResults 1, db') ∧
    db' !! 1%Z = Some a' ∧
    results_view db' 1
    = Some (Render "potential_app/results.html"
              (mkContext a' (soil_data a') (crop_recommendations a')
                 (energy_results a') None)).
Proof.
  assert (∃ db', process_analysis (stages := stages_online) sample_db 1
                 = (RedirectResults 1, db'))
    as [db' Hsaved] by (eexists; reflexivity).
  destruct (pages_show_saved_run (stages := stages_online) sample_db 1 db' Hsaved)
    as (a' & Ha' & Hresults & _).
  exists db', a'. exact (conj Hsaved (conj Ha' Hresults)).
Defined.

(** The results page raises on the stored list. *)
Lemma results_view_raises_sample : results_view sample_list_db 1 = None.
Proof.
  destruct (results_view_raises sample_list_db 1) as [[_ Hraise] _].
  apply Hraise. eexists. split; [reflexivity|]. split; reflexivity.
Defined.

(** The results page of the sample analysis before any run. *)
Lemma results_view_defaults_sample :
  ∃ ctx doc,
    results_view sample_db 1 = Some (Render "potential_app/results.html" ctx) ∧
    ctx_energy_results ctx = VDict doc ∧
    is_Some (doc !! "agri_revenue") ∧
    ctx_analysis ctx = sample_analysis.
Proof.
  assert (∃ ctx, results_view sample_db 1
                 = Some (Render "potential_app/results.html" ctx))
    as [ctx Hview] by (eexists; reflexivity).
  destruct (results_view_defaults sample_db 1 sample_analysis ctx
              "potential_app/results.html" eq_refl Hview)
    as (doc & Hdoc & Hagri & _ & _ & _ & Hfalsy).
  destruct (Hfalsy eq_refl) as [_ Hshown].
  exists ctx, doc. exact (conj Hview (conj Hdoc (conj Hagri Hshown))).
Defined.

(** The download of the saved sample run. *)
Lemma download_after_saved_run_sample :
  ∃ db',
    process_analysis (stages := stages_online) sample_db 1
    = (RedirectResults 1, db') ∧
    report_download (renderer := sample_renderer) db' 1
    = PdfAttachment "report_1.pdf" "pdf".
Proof.
  assert (∃ db', process_analysis (stages := stages_online) sample_db 1
                 = (RedirectResults 1, db'))
    as [db' Hsaved] by (eexists; reflexivity).
  destruct (download_after_saved_run (stages := stages_online)
              (renderer := sample_renderer) sample_db 1 db' Hsaved)
    as (a' & records & months & revenue & _ & _ & _ & _ & _ & _ & Hpdf).
  exists db'. split; [exact Hsaved|].
  exact (Hpdf "plot" "html" "pdf" eq_refl eq_refl eq_refl).
Defined.

(** The download of the record without a month. *)
Lemma download_failures_sample :
  report_download (renderer := sample_renderer) sample_monthless_db 1
  = ServerError "PDF generation error" 500.
Proof.
  destruct (download_failures (renderer := sample_renderer)
              sample_monthless_db 1) as [_ Hmissing].
  eapply (Hmissing _ sample_monthless_document
            [VDict sample_monthless_record] sample_monthless_record).
  - reflexivity.
  - reflexivity.
  - reflexivity.
  - apply list_elem_of_here.
  - left. reflexivity.
Defined.

(** User 3 is denied the sample proposal. *)
Lemma proposal_get_access_sample :
  Business.proposal_get 3 7 sample_store
  = (Business.RedirectDashboard,
     Business.add_message Business.Error "Access denied." sample_store).
Proof.
  destruct (proposal_get_access 3 7 sample_store sample_proposal eq_refl)
    as (_ & Hdenied & _).
  apply Hdenied; discriminate.
Defined.

(** User 3 cannot accept the sample proposal. *)
Lemma outsider_post_changes_nothing_sample :
  Business.proposal_post (texts := sample_texts) 3 (Some "accept") "now" 7
    sample_store
  = (Some (Business.RedirectProposalDetail 7), sample_store).
Proof.
  apply (outsider_post_changes_nothing (texts := sample_texts)
           3 (Some "accept") "now" 7 sample_store sample_proposal);
    [reflexivity | discriminate | discriminate].
Defined.

(** The builder accepts the sample proposal. *)
Lemma builder_post_answers_sample :
  ∃ p',
    Business.proposal_post (texts := sample_texts) 2 (Some "accept") "now" 7
      sample_store
    = (Some (Business.RedirectProposalDetail 7),
       Business.mkStore (<[7%Z := p']> (Business.proposals sample_store))
         (Business.bonds sample_store) (Business.analyses sample_store)
         (Business.flash sample_store)) ∧
    Business.status p' = "accepted".
Proof.
  destruct (builder_post_answers (texts := sample_texts)
              2 (Some "accept") "now" 7 sample_store sample_proposal
              eq_refl eq_refl)
    as (p' & Hpost & _ & _ & _ & _ & _ & Haccept & _).
  exists p'. exact (conj Hpost (proj1 (Haccept eq_refl))).
Defined.

(** The bond of the sample proposal survives a further choice. *)
Lemma bonds_are_kept_sample :
  Business.bonds
    (Business.proposal_post (texts := sample_texts) 1 (Some "choose_builder")
       "now" 7 sample_store_bonded).2 !! 7%Z
  = Some "bond".
Proof.
  destruct (bonds_are_kept (texts := sample_texts) 1 (Some "choose_builder")
              "now" 7 sample_store_bonded) as (Hkept & _).
  apply Hkept. reflexivity.
Defined.

(** The landowner of the sample proposal chooses before any answer. *)
Lemma landowner_choice_creates_bond_sample :
  is_Some
    (Business.bonds
       (Business.proposal_post (texts := sample_texts) 1 (Some "choose_self")
          "now" 7 sample_store).2 !! 7%Z).
Proof.
  destruct (landowner_choice_creates_bond (texts := sample_texts)
              1 "choose_self" "self_invest" "now" 7 sample_store
              sample_proposal sample_analysis)
    as (Hpost & _);
    [reflexivity | reflexivity | discriminate | by left | reflexivity
    | reflexivity |].
  rewrite Hpost. simpl. rewrite lookup_insert_eq. by eexists.
Defined.

(** A further choice on the sample proposal with a bond. *)
Lemma landowner_rechoice_keeps_bond_sample :
  Business.proposal_post (texts := sample_texts) 1 (Some "choose_builder")
    "now" 7 sample_store_bonded
  = (Some (Business.RedirectProposalDetail 7),
     Business.mkStore
       (<[7%Z := Business.set_investment_choice sample_proposal "builder_invest"]>
          (Business.proposals sample_store_bonded))
       (Business.bonds sample_store_bonded)
       (Business.analyses sample_store_bonded)
       (Business.flash sample_store_bonded)).
Proof.
  apply (landowner_rechoice_keeps_bond (texts := sample_texts)
           1 "choose_builder" "builder_invest" "now" 7 sample_store_bonded
           sample_proposal "bond");
    [reflexivity | reflexivity | discriminate | by right | reflexivity].
Defined.
